(** * sportsdataverse-js: the NHL and NBA service modules

    A shallow embedding of [src/app/services/nhl.service.js] and of the
    NBA service module (the second source file), together with the part
    of the JavaScript runtime they rely on: property reads that throw on
    [undefined]/[null], [parseInt], string conversion inside template
    literals, truthiness, destructuring with defaults and property
    assignment.

    Every operation of the two modules has the same outline:
    build a URL and a parameter object, [await axios.get], then select
    fields of the response.  The embedding keeps that outline: each
    operation is cut at its [await] into a request builder and a
    projector, and the operation itself is their composition around the
    transport. *)

From Stdlib Require Import ZArith String Ascii List Lia.
From stdpp Require Import base option gmap strings list fin_maps.

#[local] Open Scope string_scope.
#[local] Open Scope Z_scope.

(** ** JavaScript values *)

(** Numbers.  The services only compute with game ids, years, months,
    days and limits, so a number is an integer or [NaN].  [Num z]
    stands for the JavaScript number [z] when [z] is a safe integer, at
    most [max_safe_integer] in magnitude: there a double holds the
    integer exactly, [parseInt] reads it exactly and it is printed in
    plain decimal notation.  Beyond that a double rounds, and from
    10^21 on it is printed with an exponent; the functions below do
    neither, so a property that names the value a number is printed as
    or parsed to is stated for safe integers only. *)
Inductive number :=
| Num (z : Z)
| NaN.

(** [Number.MAX_SAFE_INTEGER], 2^53 - 1. *)
Definition max_safe_integer : Z := 9007199254740991.

(** A value is a JSON document or [undefined].  Objects are finite maps
    from property names to values.  An array carries, besides its
    elements, the named properties that an assignment such as
    [game.id = ...] may add to it. *)
#[warnings="-register-all"]
Inductive value :=
| VUndef
| VNull
| VBool (b : bool)
| VNumber (n : number)
| VStr (s : string)
| VArr (elems : list value) (own : gmap string value)
| VObj (own : gmap string value).

(** An object literal [{k1: v1, ..., kn: vn}] with distinct keys. *)
Definition obj (fields : list (string * value)) : value :=
  VObj (list_to_map fields).

Definition num (z : Z) : value := VNumber (Num z).

(** ** Outcomes of an asynchronous operation *)

(** A promise settles with a value or is rejected with an error.  The
    only errors that occur are the [TypeError] of the runtime and the
    rejection of the HTTP client. *)
Inductive error :=
| TypeError
| TransportError.

Inductive outcome (A : Type) :=
| Ok (a : A)
| Throw (e : error).
Arguments Ok {A} a.
Arguments Throw {A} e.

#[global] Instance outcome_ret : MRet outcome := fun A a => Ok a.
#[global] Instance outcome_bind : MBind outcome := fun A B f m =>
  match m with
  | Ok a => f a
  | Throw e => Throw e
  end.
#[global] Instance outcome_fmap : FMap outcome := fun A B f m =>
  match m with
  | Ok a => Ok (f a)
  | Throw e => Throw e
  end.

(** ** Decimal notation *)

Definition digit_char (d : Z) : ascii := ascii_of_nat (48 + Z.to_nat d).

(** Decimal digits of a natural number, most significant first. *)
Fixpoint digits_go (fuel : nat) (n : Z) (acc : string) : string :=
  let acc' := String (digit_char (n mod 10)) acc in
  match fuel with
  | O => acc'
  | S fuel' => if n <? 10 then acc' else digits_go fuel' (n / 10) acc'
  end.

Definition digits (n : Z) : string :=
  digits_go (Z.to_nat (Z.log2 n)) n EmptyString.

(** ** Property access *)

(** [undefined] and [null] have no properties: reading one throws. *)
Definition nullish (v : value) : bool :=
  match v with
  | VUndef | VNull => true
  | _ => false
  end.

(** The own property [k] of a value that is not nullish.  The names the
    services read ("header", "id", "plays", "content", ...) are not
    inherited from any prototype, so only own properties matter. *)
Definition peek (v : value) (k : string) : value :=
  match v with
  | VObj own | VArr _ own => default VUndef (own !! k)
  | _ => VUndef
  end.

(** The element [i] of a value that is not nullish: an array element, a
    one-character string, the property named by the index. *)
Definition peek_index (v : value) (i : nat) : value :=
  match v with
  | VArr elems _ => default VUndef (elems !! i)
  | VStr s =>
      match String.get i s with
      | Some c => VStr (String c EmptyString)
      | None => VUndef
      end
  | VObj own => default VUndef (own !! digits (Z.of_nat i))
  | _ => VUndef
  end.

(** [v.k] *)
Definition get_prop (v : value) (k : string) : outcome value :=
  if nullish v then Throw TypeError else Ok (peek v k).

(** [v[i]] *)
Definition get_index (v : value) (i : nat) : outcome value :=
  if nullish v then Throw TypeError else Ok (peek_index v i).

(** Chains of reads, written as in the source: [e ▸ "a" ▸ "b" ▹ 0]
    stands for [e.a.b[0]]. *)
Definition dot (e : outcome value) (k : string) : outcome value :=
  v ← e; get_prop v k.
Definition sub (e : outcome value) (i : nat) : outcome value :=
  v ← e; get_index v i.

Notation "e ▸ k" := (dot e k) (at level 40, left associativity).
Notation "e ▹ i" := (sub e i) (at level 40, left associativity).

(** [o.k = v] for a name [k] that is not an array index.  On a primitive
    the assignment throws in strict code and is dropped in sloppy
    code. *)
Definition put_prop (strict : bool) (o : value) (k : string) (v : value)
  : outcome value :=
  match o with
  | VUndef | VNull => Throw TypeError
  | VObj own => Ok (VObj (<[k := v]> own))
  | VArr elems own => Ok (VArr elems (<[k := v]> own))
  | VBool _ | VNumber _ | VStr _ => if strict then Throw TypeError else Ok o
  end.

(** A parameter pattern [{ k = dflt }]: destructuring [undefined] or
    [null] throws; the default replaces exactly [undefined]. *)
Definition or_default (v dflt : value) : value :=
  match v with
  | VUndef => dflt
  | _ => v
  end.

Definition destructure (arg : value) (k : string) (dflt : value)
  : outcome value :=
  v ← get_prop arg k;
  mret (or_default v dflt).

(** ** Conversions *)

(** [Number.prototype.toString] *)
Definition number_to_string (n : number) : string :=
  match n with
  | NaN => "NaN"
  | Num z => if z <? 0 then "-" +:+ digits (- z) else digits z
  end.

(** [ToString], as applied by template literals, by [+] with a string
    and by [parseInt]. *)
Fixpoint to_string (v : value) : string :=
  match v with
  | VUndef => "undefined"
  | VNull => "null"
  | VBool true => "true"
  | VBool false => "false"
  | VNumber n => number_to_string n
  | VStr s => s
  | VArr elems _ =>
      let elt x :=
        match x with
        | VUndef | VNull => ""
        | _ => to_string x
        end in
      (fix join (l : list value) : string :=
         match l with
         | [] => ""
         | [x] => elt x
         | x :: r => elt x +:+ "," +:+ join r
         end) elems
  | VObj _ => "[object Object]"
  end.

(** White space skipped by [parseInt] (the ASCII part of it). *)
Definition is_white (c : ascii) : bool :=
  let n := nat_of_ascii c in
  ((9 <=? n) && (n <=? 13) || (n =? 32))%nat.

Fixpoint trim_start (s : string) : string :=
  match s with
  | String c r => if is_white c then trim_start r else s
  | EmptyString => s
  end.

Definition digit_val (radix : Z) (c : ascii) : option Z :=
  let n := Z.of_nat (nat_of_ascii c) in
  let d :=
    if (48 <=? n) && (n <=? 57) then Some (n - 48)
    else if (97 <=? n) && (n <=? 122) then Some (n - 87)
    else if (65 <=? n) && (n <=? 90) then Some (n - 55)
    else None in
  match d with
  | Some d => if d <? radix then Some d else None
  | None => None
  end.

(** The longest prefix of digits, as a number; [None] if it is empty. *)
Fixpoint parse_digits (radix : Z) (s : string) (acc : option Z) : option Z :=
  match s with
  | EmptyString => acc
  | String c r =>
      match digit_val radix c with
      | Some d => parse_digits radix r (Some (radix * default 0 acc + d))
      | None => acc
      end
  end.

(** [parseInt(s)] on a string, without a radix argument. *)
Definition parseInt_string (s : string) : number :=
  let s := trim_start s in
  let '(sign, s) :=
    match s with
    | String "-" r => (-1, r)
    | String "+" r => (1, r)
    | _ => (1, s)
    end in
  let '(radix, s) :=
    match s with
    | String "0" (String "x" r) | String "0" (String "X" r) => (16, r)
    | _ => (10, s)
    end in
  match parse_digits radix s None with
  | Some n => Num (sign * n)
  | None => NaN
  end.

(** Strings made of decimal digits only. *)
Definition is_digit (c : ascii) : bool :=
  (48 <=? nat_of_ascii c)%nat && (nat_of_ascii c <=? 57)%nat.

Fixpoint all_digits (s : string) : bool :=
  match s with
  | EmptyString => true
  | String c r => is_digit c && all_digits r
  end.

(** [parseInt(v)] *)
Definition parseInt (v : value) : number :=
  parseInt_string (to_string v).

(** [n <= 9]: a comparison with [NaN] is false. *)
Definition number_le (n : number) (bound : Z) : bool :=
  match n with
  | Num z => z <=? bound
  | NaN => false
  end.

(** Truthiness, for [year && month && day]. *)
Definition truthy (v : value) : bool :=
  match v with
  | VUndef | VNull | VBool false | VNumber NaN => false
  | VNumber (Num z) => negb (z =? 0)
  | VStr s => negb (String.eqb s "")
  | _ => true
  end.

(** [v === s] for a string literal [s]. *)
Definition strict_eq_string (v : value) (s : string) : bool :=
  match v with
  | VStr t => String.eqb t s
  | _ => false
  end.

(** The expression both modules use to render a month or a day:
    [parseInt(m) <= 9 ? "0" + parseInt(m) : parseInt(m)], inside a
    template literal. *)
Definition pad (m : value) : string :=
  if number_le (parseInt m) 9
  then "0" +:+ number_to_string (parseInt m)
  else number_to_string (parseInt m).

(** The template [`${year}${pad month}${pad day}`]. *)
Definition date_component (year month day : value) : string :=
  to_string year +:+ pad month +:+ pad day.

(** ** The HTTP client *)

(** What [axios.get(url, { params })] is called with. *)
Record Request := {
  url : string;
  params : value
}.

(** What it resolves to: the response schema of the client. *)
Record Response := {
  data : value;
  status : Z;
  statusText : string;
  headers : value;
  config : value;
  request : value
}.

(** The response as the object the services read properties of. *)
Definition response_object (r : Response) : value :=
  obj [("data", data r);
       ("status", num (status r));
       ("statusText", VStr (statusText r));
       ("headers", headers r);
       ("config", config r);
       ("request", request r)].

(** The query string of a URL: what follows its first "?". *)
Fixpoint query_string (u : string) : option string :=
  match u with
  | EmptyString => None
  | String c r => if Ascii.eqb c "?" then Some r else query_string r
  end.

Fixpoint starts_with (p s : string) : bool :=
  match p, s with
  | EmptyString, _ => true
  | String a p', String b s' => Ascii.eqb a b && starts_with p' s'
  | String _ _, EmptyString => false
  end.

(** Whether the query string of a URL has a parameter [name]: it starts
    with "name=" or goes on with "&name=" somewhere. *)
Definition query_has (name : string) (u : string) : bool :=
  match query_string u with
  | Some q =>
      starts_with (name +:+ "=") q
      || bool_decide (is_Some (String.index 0 ("&" +:+ name +:+ "=") q))
  | None => false
  end.

(** The transport: any function from requests to settled promises. *)
Definition Transport := Request -> outcome Response.

(** [await axios.get(...)] followed by the projection of the response. *)
Definition perform (get : Transport) (req : outcome Request)
  (project : Response -> outcome value) : outcome value :=
  rq ← req; res ← get rq; project res.

(** ** The NHL service ([src/app/services/nhl.service.js])

    An ES module, hence strict code. *)
Module nhl.

Definition summaryUrl : string :=
  "http://site.api.espn.com/apis/site/v2/sports/hockey/nhl/summary".

(** [getPlayByPlay(id)] *)
Definition getPlayByPlay_request (id : value) : Request :=
  {| url := summaryUrl; params := obj [("event", id)] |}.

Definition getPlayByPlay_project (r : Response) : outcome value :=
  let res := Ok (response_object r) in
  teams ← res ▸ "data" ▸ "header" ▸ "competitions" ▹ 0 ▸ "competitors";
  id ← parseInt <$> res ▸ "data" ▸ "header" ▸ "id";
  plays ← res ▸ "data" ▸ "plays";
  onIce ← res ▸ "data" ▸ "onIce";
  competitions ← res ▸ "data" ▸ "header" ▸ "competitions";
  season ← res ▸ "data" ▸ "header" ▸ "season";
  boxScore ← res ▸ "data" ▸ "boxscore";
  seasonSeries ← res ▸ "data" ▸ "seasonseries";
  standings ← res ▸ "data" ▸ "standings";
  mret (obj [("teams", teams);
             ("id", VNumber id);
             ("plays", plays);
             ("onIce", onIce);
             ("competitions", competitions);
             ("season", season);
             ("boxScore", boxScore);
             ("seasonSeries", seasonSeries);
             ("standings", standings)]).

(** [getBoxScore(id)] *)
Definition getBoxScore_request (id : value) : Request :=
  {| url := summaryUrl; params := obj [("event", id)] |}.

Definition getBoxScore_project (r : Response) : outcome value :=
  let res := Ok (response_object r) in
  game ← res ▸ "data" ▸ "boxscore";
  id ← parseInt <$> res ▸ "data" ▸ "header" ▸ "id";
  put_prop true game "id" (VNumber id).

(** [getSummary(id)] *)
Definition getSummary_request (id : value) : Request :=
  {| url := summaryUrl; params := obj [("event", id)] |}.

Definition getSummary_project (r : Response) : outcome value :=
  let res := Ok (response_object r) in
  boxScore ← res ▸ "data" ▸ "boxscore";
  gameInfo ← res ▸ "data" ▸ "gameInfo";
  header ← res ▸ "data" ▸ "header";
  teams ← res ▸ "data" ▸ "header" ▸ "competitions" ▹ 0 ▸ "competitors";
  id ← parseInt <$> res ▸ "data" ▸ "header" ▸ "id";
  plays ← res ▸ "data" ▸ "plays";
  onIce ← res ▸ "data" ▸ "onIce";
  leaders ← res ▸ "data" ▸ "leaders";
  competitions ← res ▸ "data" ▸ "header" ▸ "competitions";
  season ← res ▸ "data" ▸ "header" ▸ "season";
  seasonSeries ← res ▸ "data" ▸ "seasonseries";
  standings ← res ▸ "data" ▸ "standings";
  mret (obj [("boxScore", boxScore);
             ("gameInfo", gameInfo);
             ("header", header);
             ("teams", teams);
             ("id", VNumber id);
             ("plays", plays);
             ("onIce", onIce);
             ("leaders", leaders);
             ("competitions", competitions);
             ("season", season);
             ("seasonSeries", seasonSeries);
             ("standings", standings)]).

(** [getPicks(id)] *)
Definition getPicks_request (id : value) : Request :=
  {| url := summaryUrl; params := obj [("event", id)] |}.

Definition getPicks_project (r : Response) : outcome value :=
  let res := Ok (response_object r) in
  id ← parseInt <$> res ▸ "data" ▸ "header" ▸ "id";
  gameInfo ← res ▸ "data" ▸ "gameInfo";
  leaders ← res ▸ "data" ▸ "leaders";
  header ← res ▸ "data" ▸ "header";
  teams ← res ▸ "data" ▸ "header" ▸ "competitions" ▹ 0 ▸ "competitors";
  competitions ← res ▸ "data" ▸ "header" ▸ "competitions";
  pickcenter ← res ▸ "data" ▸ "winprobability";
  againstTheSpread ← res ▸ "data" ▸ "againstTheSpread";
  odds ← res ▸ "data" ▸ "odds";
  seasonSeries ← res ▸ "data" ▸ "seasonseries";
  season ← res ▸ "data" ▸ "header" ▸ "season";
  standings ← res ▸ "data" ▸ "standings";
  mret (obj [("id", VNumber id);
             ("gameInfo", gameInfo);
             ("leaders", leaders);
             ("header", header);
             ("teams", teams);
             ("competitions", competitions);
             ("pickcenter", pickcenter);
             ("againstTheSpread", againstTheSpread);
             ("odds", odds);
             ("seasonSeries", seasonSeries);
             ("season", season);
             ("standings", standings)]).

(** [getSchedule({ year = null, month = null, day = null })] *)
Definition getSchedule_request (arg : value) : outcome Request :=
  year ← destructure arg "year" VNull;
  month ← destructure arg "month" VNull;
  day ← destructure arg "day" VNull;
  let baseUrl :=
    "http://cdn.espn.com/core/nhl/schedule?dates="
      +:+ date_component year month day in
  mret {| url := baseUrl;
          params := obj [("xhr", num 1);
                         ("render", VBool false);
                         ("device", VStr "desktop");
                         ("userab", num 18)] |}.

Definition getSchedule_project (r : Response) : outcome value :=
  Ok (response_object r) ▸ "data" ▸ "content" ▸ "schedule".

(** [getScoreboard({ year, month, day, limit = 300 })] *)
Definition getScoreboard_request (arg : value) : outcome Request :=
  year ← destructure arg "year" VUndef;
  month ← destructure arg "month" VUndef;
  day ← destructure arg "day" VUndef;
  limit ← destructure arg "limit" (num 300);
  let baseUrl :=
    "http://site.api.espn.com/apis/site/v2/sports/hockey/nhl/scoreboard" in
  let params := obj [("limit", limit)] in
  params ←
    (if truthy year && truthy month && truthy day
     then put_prop true params "dates"
            (VStr (date_component year month day))
     else mret params);
  mret {| url := baseUrl; params := params |}.

Definition getScoreboard_project (r : Response) : outcome value :=
  Ok (response_object r) ▸ "data".

(** The constant [groupId] of [getStandings]. *)
Definition groupId (group : value) : Z :=
  if strict_eq_string group "league" then 1
  else if strict_eq_string group "conference" then 2
  else 3.

(** [getStandings({ year = new Date().getFullYear(), group = 'league' })];
    [currentYear] is what the clock answers. *)
Definition getStandings_request (currentYear : Z) (arg : value)
  : outcome Request :=
  year ← destructure arg "year" (num currentYear);
  group ← destructure arg "group" (VStr "league");
  let baseUrl :=
    "https://site.web.api.espn.com/apis/v2/sports/hockey/nhl/standings" in
  mret {| url := baseUrl;
          params :=
            obj [("region", VStr "us");
                 ("lang", VStr "en");
                 ("contentorigin", VStr "espn");
                 ("type", num 1);
                 ("level", num (groupId group));
                 ("sort", VStr "playoffseed:asc,points:desc,gamesplayed:asc,rotwins:desc");
                 ("season", year)] |}.

Definition getStandings_project (r : Response) : outcome value :=
  Ok (response_object r) ▸ "data".

(** [getTeamList()] *)
Definition getTeamList_request : Request :=
  {| url := "http://site.api.espn.com/apis/site/v2/sports/hockey/nhl/teams";
     params := obj [("limit", num 1000)] |}.

Definition getTeamList_project (r : Response) : outcome value :=
  Ok (response_object r) ▸ "data".

(** [getTeamInfo(id)]: no parameter object is passed. *)
Definition getTeamInfo_request (id : value) : Request :=
  {| url := "http://site.api.espn.com/apis/site/v2/sports/hockey/nhl/teams/"
              +:+ to_string id;
     params := VUndef |}.

Definition getTeamInfo_project (r : Response) : outcome value :=
  Ok (response_object r) ▸ "data".

(** [getTeamPlayers(id)] *)
Definition getTeamPlayers_request (id : value) : Request :=
  {| url := "http://site.api.espn.com/apis/site/v2/sports/hockey/nhl/teams/"
              +:+ to_string id;
     params := obj [("enable", VStr "roster")] |}.

Definition getTeamPlayers_project (r : Response) : outcome value :=
  Ok (response_object r) ▸ "data".

(** The exported operations. *)
Section operations.
Variable get : Transport.

Definition getPlayByPlay (id : value) : outcome value :=
  perform get (Ok (getPlayByPlay_request id)) getPlayByPlay_project.
Definition getBoxScore (id : value) : outcome value :=
  perform get (Ok (getBoxScore_request id)) getBoxScore_project.
Definition getSummary (id : value) : outcome value :=
  perform get (Ok (getSummary_request id)) getSummary_project.
Definition getPicks (id : value) : outcome value :=
  perform get (Ok (getPicks_request id)) getPicks_project.
Definition getSchedule (arg : value) : outcome value :=
  perform get (getSchedule_request arg) getSchedule_project.
Definition getScoreboard (arg : value) : outcome value :=
  perform get (getScoreboard_request arg) getScoreboard_project.
Definition getStandings (currentYear : Z) (arg : value) : outcome value :=
  perform get (getStandings_request currentYear arg) getStandings_project.
Definition getTeamList : outcome value :=
  perform get (Ok getTeamList_request) getTeamList_project.
Definition getTeamInfo (id : value) : outcome value :=
  perform get (Ok (getTeamInfo_request id)) getTeamInfo_project.
Definition getTeamPlayers (id : value) : outcome value :=
  perform get (Ok (getTeamPlayers_request id)) getTeamPlayers_project.
End operations.

End nhl.

(** ** The NBA service (the second source file)

    A CommonJS module without a strict-mode directive, hence sloppy
    code. *)
Module nba.

(** [getPlayByPlay(id)] *)
Definition getPlayByPlay_request (id : value) : Request :=
  {| url := "http://cdn.espn.com/core/nba/playbyplay";
     params := obj [("gameId", id);
                    ("xhr", num 1);
                    ("render", VStr "false");
                    ("userab", num 18)] |}.

Definition getPlayByPlay_project (r : Response) : outcome value :=
  let res := Ok (response_object r) in
  teams ← res ▸ "data" ▸ "gamepackageJSON" ▸ "header" ▸ "competitions" ▹ 0
            ▸ "competitors";
  id ← res ▸ "data" ▸ "gamepackageJSON" ▸ "header" ▸ "id";
  plays ← res ▸ "data" ▸ "gamepackageJSON" ▸ "plays";
  competitions ← res ▸ "data" ▸ "gamepackageJSON" ▸ "header" ▸ "competitions";
  season ← res ▸ "data" ▸ "gamepackageJSON" ▸ "header" ▸ "season";
  boxScore ← res ▸ "data" ▸ "gamepackageJSON" ▸ "boxscore";
  seasonSeries ← res ▸ "data" ▸ "gamepackageJSON" ▸ "seasonseries";
  standings ← res ▸ "data" ▸ "gamepackageJSON" ▸ "standings";
  mret (obj [("teams", teams);
             ("id", id);
             ("plays", plays);
             ("competitions", competitions);
             ("season", season);
             ("boxScore", boxScore);
             ("seasonSeries", seasonSeries);
             ("standings", standings)]).

(** [getBoxScore(id)] *)
Definition getBoxScore_request (id : value) : Request :=
  {| url := "http://cdn.espn.com/core/nba/boxscore";
     params := obj [("gameId", id);
                    ("xhr", num 1);
                    ("render", VBool false);
                    ("device", VStr "desktop");
                    ("userab", num 18)] |}.

Definition getBoxScore_project (r : Response) : outcome value :=
  let res := Ok (response_object r) in
  game ← res ▸ "data" ▸ "gamepackageJSON" ▸ "boxscore";
  id ← res ▸ "data" ▸ "gameId";
  put_prop false game "id" id.

(** [getSummary(id)] *)
Definition getSummary_request (id : value) : Request :=
  {| url := "http://site.api.espn.com/apis/site/v2/sports/basketball/nba/summary";
     params := obj [("event", id)] |}.

Definition getSummary_project (r : Response) : outcome value :=
  let res := Ok (response_object r) in
  boxScore ← res ▸ "data" ▸ "boxscore";
  gameInfo ← res ▸ "data" ▸ "gameInfo";
  header ← res ▸ "data" ▸ "header";
  teams ← res ▸ "data" ▸ "gamepackageJSON" ▸ "header" ▸ "competitions" ▹ 0
            ▸ "competitors";
  id ← res ▸ "data" ▸ "gamepackageJSON" ▸ "header" ▸ "id";
  plays ← res ▸ "data" ▸ "gamepackageJSON" ▸ "plays";
  winProbability ← res ▸ "data" ▸ "winprobability";
  leaders ← res ▸ "data" ▸ "leaders";
  competitions ← res ▸ "data" ▸ "gamepackageJSON" ▸ "header" ▸ "competitions";
  season ← res ▸ "data" ▸ "gamepackageJSON" ▸ "header" ▸ "season";
  seasonSeries ← res ▸ "data" ▸ "gamepackageJSON" ▸ "seasonseries";
  standings ← res ▸ "data" ▸ "gamepackageJSON" ▸ "standings";
  mret (obj [("boxScore", boxScore);
             ("gameInfo", gameInfo);
             ("header", header);
             ("teams", teams);
             ("id", id);
             ("plays", plays);
             ("winProbability", winProbability);
             ("leaders", leaders);
             ("competitions", competitions);
             ("season", season);
             ("seasonSeries", seasonSeries);
             ("standings", standings)]).

(** [getPicks(id)] *)
Definition getPicks_request (id : value) : Request :=
  {| url := "http://site.api.espn.com/apis/site/v2/sports/basketball/nba/summary";
     params := obj [("event", id)] |}.

Definition getPicks_project (r : Response) : outcome value :=
  let res := Ok (response_object r) in
  id ← parseInt <$> res ▸ "data" ▸ "header" ▸ "id";
  gameInfo ← res ▸ "data" ▸ "gameInfo";
  leaders ← res ▸ "data" ▸ "leaders";
  header ← res ▸ "data" ▸ "header";
  teams ← res ▸ "data" ▸ "header" ▸ "competitions" ▹ 0 ▸ "competitors";
  competitions ← res ▸ "data" ▸ "header" ▸ "competitions";
  winProbability ← res ▸ "data" ▸ "winprobability";
  pickcenter ← res ▸ "data" ▸ "winprobability";
  againstTheSpread ← res ▸ "data" ▸ "againstTheSpread";
  odds ← res ▸ "data" ▸ "odds";
  seasonSeries ← res ▸ "data" ▸ "seasonseries";
  season ← res ▸ "data" ▸ "header" ▸ "season";
  standings ← res ▸ "data" ▸ "standings";
  mret (obj [("id", VNumber id);
             ("gameInfo", gameInfo);
             ("leaders", leaders);
             ("header", header);
             ("teams", teams);
             ("competitions", competitions);
             ("winProbability", winProbability);
             ("pickcenter", pickcenter);
             ("againstTheSpread", againstTheSpread);
             ("odds", odds);
             ("seasonSeries", seasonSeries);
             ("season", season);
             ("standings", standings)]).

(** [getSchedule({year = null, month = null, day = null})] *)
Definition getSchedule_request (arg : value) : outcome Request :=
  year ← destructure arg "year" VNull;
  month ← destructure arg "month" VNull;
  day ← destructure arg "day" VNull;
  let baseUrl :=
    "http://cdn.espn.com/core/nba/schedule?dates="
      +:+ date_component year month day in
  mret {| url := baseUrl;
          params := obj [("xhr", num 1);
                         ("render", VBool false);
                         ("device", VStr "desktop");
                         ("userab", num 18)] |}.

Definition getSchedule_project (r : Response) : outcome value :=
  Ok (response_object r) ▸ "data" ▸ "content" ▸ "schedule".

(** [getScoreboard({year = null, month = null, day = null, limit = 300})]:
    the date goes into the URL, never into the parameter object. *)
Definition getScoreboard_request (arg : value) : outcome Request :=
  year ← destructure arg "year" VNull;
  month ← destructure arg "month" VNull;
  day ← destructure arg "day" VNull;
  limit ← destructure arg "limit" (num 300);
  let baseUrl :=
    "http://site.api.espn.com/apis/site/v2/sports/basketball/nba/scoreboard?dates="
      +:+ date_component year month day in
  mret {| url := baseUrl; params := obj [("limit", limit)] |}.

Definition getScoreboard_project (r : Response) : outcome value :=
  Ok (response_object r) ▸ "data".

(** [getStandings({year = new Date().getFullYear(), group = 'league'})];
    [currentYear] is what the clock answers. *)
Definition getStandings_request (currentYear : Z) (arg : value)
  : outcome Request :=
  year ← destructure arg "year" (num currentYear);
  group ← destructure arg "group" (VStr "league");
  let baseUrl :=
    "http://cdn.espn.com/core/nba/standings/_/season/" +:+ to_string year
      +:+ "/group/" +:+ to_string group in
  mret {| url := baseUrl;
          params := obj [("xhr", num 1);
                         ("render", VBool false);
                         ("device", VStr "desktop");
                         ("userab", num 18)] |}.

(** [return res.content.standings.groups]: read off the response
    itself, not off [res.data]. *)
Definition getStandings_project (r : Response) : outcome value :=
  Ok (response_object r) ▸ "content" ▸ "standings" ▸ "groups".

(** [getTeamList()] *)
Definition getTeamList_request : Request :=
  {| url := "http://site.api.espn.com/apis/site/v2/sports/basketball/nba/teams";
     params := obj [("limit", num 1000)] |}.

Definition getTeamList_project (r : Response) : outcome value :=
  Ok (response_object r) ▸ "data".

(** [getTeamInfo(id)]: no parameter object is passed. *)
Definition getTeamInfo_request (id : value) : Request :=
  {| url := "http://site.api.espn.com/apis/site/v2/sports/basketball/nba/teams/"
              +:+ to_string id;
     params := VUndef |}.

Definition getTeamInfo_project (r : Response) : outcome value :=
  Ok (response_object r) ▸ "data".

(** [getTeamPlayers(id)] *)
Definition getTeamPlayers_request (id : value) : Request :=
  {| url := "http://site.api.espn.com/apis/site/v2/sports/basketball/nba/teams/"
              +:+ to_string id;
     params := obj [("enable", VStr "roster")] |}.

Definition getTeamPlayers_project (r : Response) : outcome value :=
  Ok (response_object r) ▸ "data".

(** The exported operations. *)
Section operations.
Variable get : Transport.

Definition getPlayByPlay (id : value) : outcome value :=
  perform get (Ok (getPlayByPlay_request id)) getPlayByPlay_project.
Definition getBoxScore (id : value) : outcome value :=
  perform get (Ok (getBoxScore_request id)) getBoxScore_project.
Definition getSummary (id : value) : outcome value :=
  perform get (Ok (getSummary_request id)) getSummary_project.
Definition getPicks (id : value) : outcome value :=
  perform get (Ok (getPicks_request id)) getPicks_project.
Definition getSchedule (arg : value) : outcome value :=
  perform get (getSchedule_request arg) getSchedule_project.
Definition getScoreboard (arg : value) : outcome value :=
  perform get (getScoreboard_request arg) getScoreboard_project.
Definition getStandings (currentYear : Z) (arg : value) : outcome value :=
  perform get (getStandings_request currentYear arg) getStandings_project.
Definition getTeamList : outcome value :=
  perform get (Ok getTeamList_request) getTeamList_project.
Definition getTeamInfo (id : value) : outcome value :=
  perform get (Ok (getTeamInfo_request id)) getTeamInfo_project.
Definition getTeamPlayers (id : value) : outcome value :=
  perform get (Ok (getTeamPlayers_request id)) getTeamPlayers_project.
End operations.

End nba.

(** ** The projectors as field-mapping tables

    The specification describes a projector as a list of triples: output
    field, source path, optional integer coercion.  The tables below are
    read off the object literals of the two modules; [project_table]
    interprets a table with reads that never throw.  They are compared
    with the projectors of the source further down. *)
Module Declarative.

Inductive step :=
| Field (k : string)
| Elem (i : nat).

Inductive coercion :=
| Verbatim
| ToInt.

Definition read_step (v : value) (s : step) : value :=
  match s with
  | Field k => peek v k
  | Elem i => peek_index v i
  end.

(** The value at a path, [undefined] where the path leaves the
    document. *)
Definition read_path (v : value) (p : list step) : value :=
  fold_left read_step p v.

Definition coerce (c : coercion) (v : value) : value :=
  match c with
  | Verbatim => v
  | ToInt => VNumber (parseInt v)
  end.

Definition mapping := list (string * (list step * coercion)).

Definition project_table (d : value) (t : mapping) : value :=
  obj (map (fun '(k, (p, c)) => (k, coerce c (read_path d p))) t).

Definition keys (t : mapping) : gset string := list_to_set (t.*1).

(** The section of a game document that every projector walks
    through: [g.header.competitions[0]]. *)
Definition competition : list step :=
  [Field "header"; Field "competitions"; Elem 0].

Definition competitors : list step :=
  [Field "header"; Field "competitions"; Elem 0; Field "competitors"].

Definition has_competition (g : value) : bool :=
  negb (nullish g)
  && negb (nullish (read_path g [Field "header"]))
  && negb (nullish (read_path g [Field "header"; Field "competitions"]))
  && negb (nullish (read_path g competition)).

Definition nhl_playByPlay : mapping :=
  [("teams", (competitors, Verbatim));
   ("id", ([Field "header"; Field "id"], ToInt));
   ("plays", ([Field "plays"], Verbatim));
   ("onIce", ([Field "onIce"], Verbatim));
   ("competitions", ([Field "header"; Field "competitions"], Verbatim));
   ("season", ([Field "header"; Field "season"], Verbatim));
   ("boxScore", ([Field "boxscore"], Verbatim));
   ("seasonSeries", ([Field "seasonseries"], Verbatim));
   ("standings", ([Field "standings"], Verbatim))].

Definition nhl_summary : mapping :=
  [("boxScore", ([Field "boxscore"], Verbatim));
   ("gameInfo", ([Field "gameInfo"], Verbatim));
   ("header", ([Field "header"], Verbatim));
   ("teams", (competitors, Verbatim));
   ("id", ([Field "header"; Field "id"], ToInt));
   ("plays", ([Field "plays"], Verbatim));
   ("onIce", ([Field "onIce"], Verbatim));
   ("leaders", ([Field "leaders"], Verbatim));
   ("competitions", ([Field "header"; Field "competitions"], Verbatim));
   ("season", ([Field "header"; Field "season"], Verbatim));
   ("seasonSeries", ([Field "seasonseries"], Verbatim));
   ("standings", ([Field "standings"], Verbatim))].

Definition nhl_picks : mapping :=
  [("id", ([Field "header"; Field "id"], ToInt));
   ("gameInfo", ([Field "gameInfo"], Verbatim));
   ("leaders", ([Field "leaders"], Verbatim));
   ("header", ([Field "header"], Verbatim));
   ("teams", (competitors, Verbatim));
   ("competitions", ([Field "header"; Field "competitions"], Verbatim));
   ("pickcenter", ([Field "winprobability"], Verbatim));
   ("againstTheSpread", ([Field "againstTheSpread"], Verbatim));
   ("odds", ([Field "odds"], Verbatim));
   ("seasonSeries", ([Field "seasonseries"], Verbatim));
   ("season", ([Field "header"; Field "season"], Verbatim));
   ("standings", ([Field "standings"], Verbatim))].

(** The NBA play-by-play and summary read the game under
    [gamepackageJSON]. *)
Definition package (p : list step) : list step :=
  Field "gamepackageJSON" :: p.

Definition nba_playByPlay : mapping :=
  [("teams", (package competitors, Verbatim));
   ("id", (package [Field "header"; Field "id"], Verbatim));
   ("plays", (package [Field "plays"], Verbatim));
   ("competitions", (package [Field "header"; Field "competitions"], Verbatim));
   ("season", (package [Field "header"; Field "season"], Verbatim));
   ("boxScore", (package [Field "boxscore"], Verbatim));
   ("seasonSeries", (package [Field "seasonseries"], Verbatim));
   ("standings", (package [Field "standings"], Verbatim))].

Definition nba_summary : mapping :=
  [("boxScore", ([Field "boxscore"], Verbatim));
   ("gameInfo", ([Field "gameInfo"], Verbatim));
   ("header", ([Field "header"], Verbatim));
   ("teams", (package competitors, Verbatim));
   ("id", (package [Field "header"; Field "id"], Verbatim));
   ("plays", (package [Field "plays"], Verbatim));
   ("winProbability", ([Field "winprobability"], Verbatim));
   ("leaders", ([Field "leaders"], Verbatim));
   ("competitions", (package [Field "header"; Field "competitions"], Verbatim));
   ("season", (package [Field "header"; Field "season"], Verbatim));
   ("seasonSeries", (package [Field "seasonseries"], Verbatim));
   ("standings", (package [Field "standings"], Verbatim))].

Definition nba_picks : mapping :=
  [("id", ([Field "header"; Field "id"], ToInt));
   ("gameInfo", ([Field "gameInfo"], Verbatim));
   ("leaders", ([Field "leaders"], Verbatim));
   ("header", ([Field "header"], Verbatim));
   ("teams", (competitors, Verbatim));
   ("competitions", ([Field "header"; Field "competitions"], Verbatim));
   ("winProbability", ([Field "winprobability"], Verbatim));
   ("pickcenter", ([Field "winprobability"], Verbatim));
   ("againstTheSpread", ([Field "againstTheSpread"], Verbatim));
   ("odds", ([Field "odds"], Verbatim));
   ("seasonSeries", ([Field "seasonseries"], Verbatim));
   ("season", ([Field "header"; Field "season"], Verbatim));
   ("standings", ([Field "standings"], Verbatim))].

End Declarative.

(** ** The field-projecting operations, by sport and kind *)

Inductive sport := NHL | NBA.
Inductive kind := PlayByPlay | Summary | Picks.

Definition request_of (s : sport) (o : kind) : value -> Request :=
  match s, o with
  | NHL, PlayByPlay => nhl.getPlayByPlay_request
  | NHL, Summary => nhl.getSummary_request
  | NHL, Picks => nhl.getPicks_request
  | NBA, PlayByPlay => nba.getPlayByPlay_request
  | NBA, Summary => nba.getSummary_request
  | NBA, Picks => nba.getPicks_request
  end.

Definition projector (s : sport) (o : kind) : Response -> outcome value :=
  match s, o with
  | NHL, PlayByPlay => nhl.getPlayByPlay_project
  | NHL, Summary => nhl.getSummary_project
  | NHL, Picks => nhl.getPicks_project
  | NBA, PlayByPlay => nba.getPlayByPlay_project
  | NBA, Summary => nba.getSummary_project
  | NBA, Picks => nba.getPicks_project
  end.

Definition operation (s : sport) (o : kind) : Transport -> value -> outcome value :=
  match s, o with
  | NHL, PlayByPlay => nhl.getPlayByPlay
  | NHL, Summary => nhl.getSummary
  | NHL, Picks => nhl.getPicks
  | NBA, PlayByPlay => nba.getPlayByPlay
  | NBA, Summary => nba.getSummary
  | NBA, Picks => nba.getPicks
  end.

Definition table (s : sport) (o : kind) : Declarative.mapping :=
  match s, o with
  | NHL, PlayByPlay => Declarative.nhl_playByPlay
  | NHL, Summary => Declarative.nhl_summary
  | NHL, Picks => Declarative.nhl_picks
  | NBA, PlayByPlay => Declarative.nba_playByPlay
  | NBA, Summary => Declarative.nba_summary
  | NBA, Picks => Declarative.nba_picks
  end.

(** The objects a projector reads properties of: the document, and the
    header, the competitions and the first competition of the game,
    which the NBA play-by-play and summary look for under
    [gamepackageJSON]. *)
Definition sections_present (s : sport) (o : kind) (d : value) : bool :=
  match s, o with
  | NBA, PlayByPlay | NBA, Summary =>
      negb (nullish d) && Declarative.has_competition (peek d "gamepackageJSON")
  | _, _ => Declarative.has_competition d
  end.

(** ** The documented output fields

    The field lists of the external-interface table of the
    specification. *)
Module Documented.

Definition playByPlay (s : sport) : gset string :=
  {[ "teams"; "id"; "plays"; "competitions"; "season"; "boxScore";
     "seasonSeries"; "standings" ]}
  ∪ match s with NHL => {[ "onIce" ]} | NBA => ∅ end.

Definition summary : gset string :=
  {[ "boxScore"; "gameInfo"; "header"; "teams"; "id"; "plays";
     "winProbability"; "leaders"; "competitions"; "season";
     "seasonSeries"; "standings" ]}.

Definition picks : gset string :=
  {[ "id"; "gameInfo"; "leaders"; "header"; "teams"; "competitions";
     "winProbability"; "pickcenter"; "againstTheSpread"; "odds";
     "seasonSeries"; "season"; "standings" ]}.

Definition fields (s : sport) (o : kind) : gset string :=
  match o with
  | PlayByPlay => playByPlay s
  | Summary => summary
  | Picks => picks
  end.

(** What the hockey summary returns beyond the documented list. *)
Definition hockey_summary_extra (s : sport) (o : kind) : gset string :=
  match s, o with
  | NHL, Summary => {[ "onIce" ]}
  | _, _ => ∅
  end.

End Documented.

(** ** Primitive arguments

    A caller may pass a number, a string or a boolean where the
    operation destructures an object, as the usage examples in the
    comments of both modules do ([getStandings(year = yr)] passes the
    number [yr]). *)
Definition primitive (v : value) : bool :=
  match v with
  | VBool _ | VNumber _ | VStr _ => true
  | _ => false
  end.

(** ** Sample documents and transports *)
Module Sample.

Definition response (d : value) : Response :=
  {| data := d; status := 200; statusText := "OK";
     headers := obj []; config := obj []; request := obj [] |}.

(** A transport that answers every request with the document [d]. *)
Definition answering (d : value) : Transport :=
  fun _ => Ok (response d).

(** A transport whose requests are all rejected. *)
Definition failing : Transport :=
  fun _ => Throw TransportError.

(** A game document as the summary endpoints deliver it, without
    [leaders]. *)
Definition game (id : string) : value :=
  obj [("header",
        obj [("id", VStr id);
             ("competitions", VArr [obj [("competitors", VArr [] ∅)]] ∅);
             ("season", obj [("year", num 2021)])]);
       ("boxscore", obj [("teams", VArr [] ∅)]);
       ("plays", VArr [] ∅)].

(** A document of the CDN endpoints: the game sits under
    [gamepackageJSON], next to the echoed [gameId]. *)
Definition package (gameId : value) (id : string) : value :=
  obj [("gameId", gameId); ("gamepackageJSON", game id)].

(** The same without the echoed [gameId]. *)
Definition package_without_gameId (id : string) : value :=
  obj [("gamepackageJSON", game id)].

(** A document without any game in it. *)
Definition no_game : value :=
  obj [("code", num 404)].

(** The documents used below: a hockey game, and a basketball game as
    the summary endpoint and as the CDN endpoints deliver it, the latter
    with its [gameId] as a string, as a number, or left out. *)
Definition nhl_game : value := game "401272446".

(** The hockey game with an upstream [pickcenter] added. *)
Definition nhl_game_with_pickcenter : value :=
  obj [("pickcenter", VArr [obj [("provider", VStr "consensus")]] ∅);
       ("header",
        obj [("id", VStr "401272446");
             ("competitions", VArr [obj [("competitors", VArr [] ∅)]] ∅);
             ("season", obj [("year", num 2021)])]);
       ("boxscore", obj [("teams", VArr [] ∅)]);
       ("plays", VArr [] ∅)].
Definition nba_game : value := game "401283399".
Definition nba_package : value := package (VStr "401283399") "401283399".
Definition nba_package_numeric : value := package (num 401283399) "401283399".
Definition nba_package_bare : value := package_without_gameId "401283399".

End Sample.

(** * Properties *)

Import Declarative.

(** ** Reads *)

Lemma response_data r : Ok (response_object r) ▸ "data" = Ok (data r).
Proof. reflexivity. Qed.

Lemma response_content r : Ok (response_object r) ▸ "content" = Ok VUndef.
Proof. reflexivity. Qed.

Lemma dot_Ok v k :
  Ok v ▸ k = if nullish v then Throw TypeError else Ok (peek v k).
Proof. reflexivity. Qed.

Lemma sub_Ok v i :
  Ok v ▹ i = if nullish v then Throw TypeError else Ok (peek_index v i).
Proof. reflexivity. Qed.

Lemma dot_Throw e k : Throw e ▸ k = Throw e.
Proof. reflexivity. Qed.

Lemma sub_Throw e i : Throw e ▹ i = Throw e.
Proof. reflexivity. Qed.

(** Destructuring a parameter. *)
Lemma destructure_present arg k dflt :
  nullish arg = false ->
  destructure arg k dflt
  = Ok (or_default (peek arg k) dflt).
Proof.
  intros Harg. unfold destructure, get_prop. rewrite Harg. reflexivity.
Qed.

Lemma destructure_nullish arg k dflt :
  nullish arg = true -> destructure arg k dflt = Throw TypeError.
Proof.
  intros Harg. unfold destructure, get_prop. rewrite Harg. reflexivity.
Qed.

(** Runs a chain of reads, splitting on whether each object read from is
    nullish. *)
Ltac reads :=
  repeat first
    [ rewrite response_data
    | rewrite dot_Throw
    | rewrite sub_Throw
    | rewrite dot_Ok
    | rewrite sub_Ok
    | match goal with
      | H : nullish ?v = _ |- context [nullish ?v] => rewrite H
      | |- context [if nullish ?v then _ else _] => destruct (nullish v) eqn:?
      end
    | progress cbn [mbind outcome_bind fmap outcome_fmap mret outcome_ret] ].

Ltac projector_by_reads :=
  unfold has_competition, read_path, competition;
  cbn [fold_left read_step]; cbv zeta;
  reads; reflexivity.

(** A property that is absent reads as [undefined]. *)
Lemma peek_absent own k : own !! k = None -> peek (VObj own) k = VUndef.
Proof. intros H. simpl. by rewrite H. Qed.

Lemma read_path_snoc d p s : read_path d (p ++ [s]) = read_step (read_path d p) s.
Proof. unfold read_path. by rewrite fold_left_app. Qed.

Lemma read_path_absent d p k own :
  read_path d p = VObj own -> own !! k = None ->
  read_path d (p ++ [Field k]) = VUndef.
Proof.
  intros Hp Hk. rewrite read_path_snoc, Hp. by apply peek_absent.
Qed.

(** ** Each projector against its table

    A projector throws exactly when one of the objects it reads from is
    missing; otherwise it returns what its table describes. *)

Lemma nhl_getPlayByPlay_table r :
  nhl.getPlayByPlay_project r =
  if has_competition (data r)
  then Ok (project_table (data r) nhl_playByPlay)
  else Throw TypeError.
Proof. unfold nhl.getPlayByPlay_project. projector_by_reads. Qed.

Lemma nhl_getSummary_table r :
  nhl.getSummary_project r =
  if has_competition (data r)
  then Ok (project_table (data r) nhl_summary)
  else Throw TypeError.
Proof. unfold nhl.getSummary_project. projector_by_reads. Qed.

Lemma nhl_getPicks_table r :
  nhl.getPicks_project r =
  if has_competition (data r)
  then Ok (project_table (data r) nhl_picks)
  else Throw TypeError.
Proof. unfold nhl.getPicks_project. projector_by_reads. Qed.

Lemma nba_getPlayByPlay_table r :
  nba.getPlayByPlay_project r =
  if negb (nullish (data r)) && has_competition (peek (data r) "gamepackageJSON")
  then Ok (project_table (data r) nba_playByPlay)
  else Throw TypeError.
Proof. unfold nba.getPlayByPlay_project. projector_by_reads. Qed.

Lemma nba_getSummary_table r :
  nba.getSummary_project r =
  if negb (nullish (data r)) && has_competition (peek (data r) "gamepackageJSON")
  then Ok (project_table (data r) nba_summary)
  else Throw TypeError.
Proof. unfold nba.getSummary_project. projector_by_reads. Qed.

Lemma nba_getPicks_table r :
  nba.getPicks_project r =
  if has_competition (data r)
  then Ok (project_table (data r) nba_picks)
  else Throw TypeError.
Proof. unfold nba.getPicks_project. projector_by_reads. Qed.

Lemma projector_table s o r :
  projector s o r =
  if sections_present s o (data r)
  then Ok (project_table (data r) (table s o))
  else Throw TypeError.
Proof.
  destruct s, o; cbn [projector sections_present table].
  - apply nhl_getPlayByPlay_table.
  - apply nhl_getSummary_table.
  - apply nhl_getPicks_table.
  - apply nba_getPlayByPlay_table.
  - apply nba_getSummary_table.
  - apply nba_getPicks_table.
Qed.

Lemma operation_perform s o get id :
  operation s o get id =
  perform get (Ok (request_of s o id)) (projector s o).
Proof. by destruct s, o. Qed.

Lemma operation_answered s o get id r :
  get (request_of s o id) = Ok r ->
  operation s o get id = projector s o r.
Proof.
  intros Hget. rewrite operation_perform. unfold perform.
  cbn [mbind outcome_bind]. by rewrite Hget.
Qed.

Lemma operation_rejected s o get id e :
  get (request_of s o id) = Throw e ->
  operation s o get id = Throw e.
Proof.
  intros Hget. rewrite operation_perform. unfold perform.
  cbn [mbind outcome_bind]. by rewrite Hget.
Qed.

(** The fields of a projected object are those of its table. *)
Lemma project_table_lookup s o d k p c m :
  (k, (p, c)) ∈ table s o ->
  project_table d (table s o) = VObj m ->
  m !! k = Some (coerce c (read_path d p)).
Proof.
  unfold project_table, obj. intros Hin [= <-].
  destruct s, o; cbn [table] in Hin;
    repeat (apply elem_of_cons in Hin as [Hin | Hin];
            [ injection Hin as -> -> ->; reflexivity | ]);
    by apply elem_of_nil in Hin.
Qed.

Lemma project_table_object d t : exists m, project_table d t = VObj m.
Proof. unfold project_table, obj. eauto. Qed.

Lemma project_table_dom d (t : mapping) m :
  project_table d t = VObj m -> dom m = keys t.
Proof.
  unfold project_table, obj. intros [= <-].
  rewrite dom_list_to_map_L. unfold keys. f_equal.
  induction t as [| [k [p c]] t IH]; [done |].
  cbn [map fmap list_fmap fst]. f_equal. apply IH.
Qed.

(** ** Key sets of the projected results *)

Lemma table_keys_documented s o :
  keys (table s o) ⊆ Documented.fields s o ∪ Documented.hockey_summary_extra s o.
Proof.
  destruct s, o; apply (bool_decide_unpack _); vm_compute; exact I.
Qed.

(** C1, as the code has it: for play-by-play, summary and picks of both
    sports, whatever the transport answers, a returned result is an
    object whose keys are those of the operation's object literal; they
    all belong to the documented field list of the operation, except
    that the hockey summary also carries [onIce]. *)
Theorem projected_keys_documented s o (get : Transport) id v :
  operation s o get id = Ok v ->
  exists m, v = VObj m
    /\ dom m = keys (table s o)
    /\ dom m ⊆ Documented.fields s o ∪ Documented.hockey_summary_extra s o.
Proof.
  destruct (get (request_of s o id)) as [r | e] eqn:Hget.
  2: { rewrite operation_rejected with (e := e); [discriminate | done]. }
  rewrite (operation_answered _ _ _ _ _ Hget), projector_table.
  destruct (sections_present s o (data r)); [| discriminate].
  intros [= <-].
  destruct (project_table (data r) (table s o)) eqn:Hp;
    try (unfold project_table, obj in Hp; discriminate).
  exists own. split; [done |].
  apply project_table_dom in Hp. rewrite Hp.
  split; [done | apply table_keys_documented].
Qed.

Lemma projected_keys_documented_witness :
  exists m, project_table (Sample.nhl_game) nhl_picks = VObj m
    /\ dom m = keys (table NHL Picks)
    /\ dom m ⊆ Documented.fields NHL Picks ∪ Documented.hockey_summary_extra NHL Picks.
Proof.
  apply (projected_keys_documented NHL Picks
           (Sample.answering (Sample.nhl_game)) (num 401272446)).
  vm_compute. reflexivity.
Defined.

(** C1, as stated, fails on the hockey summary: its result has the key
    [onIce], which the documented summary fields do not include. *)
Lemma hockey_summary_carries_onIce :
  exists m,
    nhl.getSummary (Sample.answering (Sample.nhl_game)) (num 401272446)
      = Ok (VObj m)
    /\ "onIce" ∈ dom m
    /\ "onIce" ∉ Documented.fields NHL Summary.
Proof.
  destruct (project_table_object (Sample.nhl_game) nhl_summary)
    as [m Hm].
  exists m. split; [| split].
  - rewrite <- Hm. vm_compute. reflexivity.
  - apply project_table_dom in Hm. rewrite Hm.
    apply (bool_decide_unpack _). vm_compute. exact I.
  - apply (bool_decide_unpack _). vm_compute. exact I.
Qed.

(** ** Absent source paths *)




(** The box scores and the schedules throw in the same way when the
    object they read from is absent. *)
Example other_projections_throw :
  nhl.getBoxScore (Sample.answering Sample.no_game) (num 401272446)
    = Throw TypeError
  /\ nba.getBoxScore (Sample.answering Sample.no_game) (num 401283399)
     = Throw TypeError
  /\ nhl.getSchedule (Sample.answering Sample.no_game) (obj [])
     = Throw TypeError.
Proof. repeat split; vm_compute; reflexivity. Qed.

(** A rejected request is passed on and nothing is projected. *)
Lemma transport_error_propagates s o id :
  operation s o Sample.failing id = Throw TransportError.
Proof. by apply operation_rejected. Qed.

(** When the transport answers with a document that has no [leaders]
    but has the objects the summary reads from, where it reads them
    (under [gamepackageJSON] for the NBA), the summary of either sport
    returns an object whose [leaders] is [undefined]. *)
Theorem summary_without_leaders s (get : Transport) id r own :
  get (request_of s Summary id) = Ok r ->
  data r = VObj own ->
  own !! "leaders" = None ->
  sections_present s Summary (data r) = true ->
  exists m, operation s Summary get id = Ok (VObj m)
    /\ m !! "leaders" = Some VUndef.
Proof.
  intros Hget Hd Hl Hs.
  rewrite (operation_answered _ _ _ _ _ Hget), projector_table, Hs.
  destruct (project_table_object (data r) (table s Summary)) as [m Hm].
  exists m. split; [by rewrite Hm |].
  assert (Hin : ("leaders", ([Field "leaders"], Verbatim)) ∈ table s Summary).
  { destruct s; cbn [table nhl_summary nba_summary]; repeat constructor. }
  rewrite (project_table_lookup _ _ _ _ _ _ _ Hin Hm).
  cbn [coerce read_path fold_left read_step]. rewrite Hd.
  by rewrite peek_absent.
Qed.

Lemma summary_without_leaders_witness :
  exists m,
    nba.getSummary (Sample.answering (Sample.nba_package)) (num 401283399)
      = Ok (VObj m)
    /\ m !! "leaders" = Some VUndef.
Proof.
  apply (summary_without_leaders NBA
           (Sample.answering (Sample.nba_package)) (num 401283399)
           (Sample.response (Sample.nba_package))
           (list_to_map [("gameId", VStr "401283399");
                         ("gamepackageJSON", Sample.nba_game)]));
    reflexivity.
Defined.

(** C8 at a document of the summary endpoint that has its header, its
    competitions and its first competition at the top and no [leaders]:
    the hockey summary returns a result whose [leaders] is [undefined];
    the NBA summary, which takes [header] and [boxScore] from the top
    but looks for the teams under [gamepackageJSON], throws. *)
Theorem nba_summary_throws_without_leaders :
  has_competition Sample.nba_game = true
  /\ peek Sample.nba_game "leaders" = VUndef
  /\ nba.getSummary (Sample.answering Sample.nba_game) (num 401283399)
     = Throw TypeError
  /\ exists m,
       nhl.getSummary (Sample.answering Sample.nhl_game) (num 401272446)
         = Ok (VObj m)
       /\ m !! "leaders" = Some VUndef.
Proof.
  split; [reflexivity |]. split; [reflexivity |].
  split; [vm_compute; reflexivity |].
  destruct (project_table_object Sample.nhl_game nhl_summary) as [m Hm].
  exists m. split; [rewrite <- Hm; vm_compute; reflexivity |].
  rewrite (project_table_lookup NHL Summary Sample.nhl_game "leaders"
             [Field "leaders"] Verbatim m); [reflexivity | | exact Hm].
  cbn [table nhl_summary]. repeat constructor.
Qed.

(** The NBA summary looks for the game under [gamepackageJSON]: on a
    document that has its header at the top, as the summary endpoint
    and the sibling [getPicks] have it, the summary throws. *)
Lemma nba_summary_needs_package :
  nba.getSummary (Sample.answering (Sample.nba_game)) (num 401283399)
    = Throw TypeError
  /\ exists m,
       nba.getPicks (Sample.answering (Sample.nba_game)) (num 401283399)
         = Ok (VObj m).
Proof.
  split; [vm_compute; reflexivity |].
  destruct (project_table_object (Sample.nba_game) nba_picks) as [m Hm].
  exists m. rewrite <- Hm. vm_compute. reflexivity.
Qed.

(** ** Integer coercion *)

Lemma digits_go_small fuel n acc :
  n < 10 -> digits_go fuel n acc = String (digit_char (n mod 10)) acc.
Proof.
  intros Hn. destruct fuel; cbn [digits_go]; [done |].
  destruct (Z.ltb_spec n 10); [done | lia].
Qed.

Lemma digits_go_large fuel n acc :
  10 <= n ->
  digits_go (S fuel) n acc
  = digits_go fuel (n / 10) (String (digit_char (n mod 10)) acc).
Proof.
  intros Hn. cbn [digits_go]. destruct (Z.ltb_spec n 10); [lia | done].
Qed.

Lemma digit_char_cases d :
  0 <= d <= 9 ->
  is_digit (digit_char d) = true /\ digit_val 10 (digit_char d) = Some d.
Proof.
  intros Hd.
  assert (d = 0 \/ d = 1 \/ d = 2 \/ d = 3 \/ d = 4 \/ d = 5
          \/ d = 6 \/ d = 7 \/ d = 8 \/ d = 9) as Hc by lia.
  repeat destruct Hc as [-> | Hc]; try subst d; split; reflexivity.
Qed.

Lemma mod_10_digit n : 0 <= n mod 10 <= 9.
Proof. Z.to_euclidean_division_equations; lia. Qed.

Lemma all_digits_go fuel n acc :
  all_digits acc = true -> all_digits (digits_go fuel n acc) = true.
Proof.
  revert n acc. induction fuel as [| fuel IH]; intros n acc Hacc.
  - cbn [digits_go all_digits].
    by rewrite (proj1 (digit_char_cases _ (mod_10_digit n))).
  - cbn [digits_go].
    assert (Hstep : all_digits (String (digit_char (n mod 10)) acc) = true).
    { cbn [all_digits].
      by rewrite (proj1 (digit_char_cases _ (mod_10_digit n))). }
    destruct (n <? 10); [done | by apply IH].
Qed.

Lemma digits_go_nonempty fuel n acc : digits_go fuel n acc <> "".
Proof.
  revert n acc. induction fuel as [| fuel IH]; intros n acc;
    cbn [digits_go]; [done |].
  destruct (n <? 10); [done | apply IH].
Qed.

(** Reading back the digits that [digits_go] writes in front of [acc]
    shifts the number read so far and adds [n]. *)
Lemma parse_digits_go fuel n :
  0 <= n < 10 ^ (Z.of_nat fuel + 1) ->
  exists s, forall acc a,
    parse_digits 10 (digits_go fuel n acc) a
    = parse_digits 10 acc (Some (default 0 a * s + n)).
Proof.
  revert n. induction fuel as [| fuel IH]; intros n Hn.
  - exists 10. intros acc a. cbn [digits_go parse_digits].
    assert (n < 10) by (cbn in Hn; lia).
    rewrite Z.mod_small by lia.
    rewrite (proj2 (digit_char_cases n ltac:(lia))). f_equal. f_equal.
    generalize (default 0 a). intros; lia.
  - destruct (Z.ltb_spec n 10) as [Hsmall | Hlarge].
    + exists 10. intros acc a. rewrite digits_go_small by done.
      cbn [parse_digits]. rewrite Z.mod_small by lia.
      rewrite (proj2 (digit_char_cases n ltac:(lia))). f_equal. f_equal.
      generalize (default 0 a). intros; lia.
    + destruct (IH (n / 10)) as [s Hs].
      { replace (Z.of_nat (S fuel) + 1) with (Z.succ (Z.of_nat fuel + 1))
          in Hn by lia.
        rewrite Z.pow_succ_r in Hn by lia.
        split; [Z.to_euclidean_division_equations; lia |].
        apply Z.div_lt_upper_bound; lia. }
      exists (10 * s). intros acc a. rewrite digits_go_large by done.
      rewrite Hs. cbn [parse_digits].
      rewrite (proj2 (digit_char_cases _ (mod_10_digit n))).
      f_equal. f_equal. cbn [default from_option]. unfold id at 1.
      generalize (default 0 a). intros a0.
      transitivity (a0 * (10 * s) + (10 * (n / 10) + n mod 10)); [ring |].
      f_equal. symmetry. apply Z.div_mod. lia.
Qed.

(** The fuel of [digits] is enough. *)
Lemma digits_fuel n :
  0 <= n -> n < 10 ^ (Z.of_nat (Z.to_nat (Z.log2 n)) + 1).
Proof.
  intros Hn. rewrite Z2Nat.id by apply Z.log2_nonneg.
  destruct (Z.eq_dec n 0) as [-> | Hne]; [done |].
  apply Z.lt_le_trans with (2 ^ (Z.log2 n + 1)).
  - replace (Z.log2 n + 1) with (Z.succ (Z.log2 n)) by lia.
    apply Z.log2_spec. lia.
  - apply Z.pow_le_mono_l. pose proof (Z.log2_nonneg n). lia.
Qed.

Lemma parse_digits_digits n :
  0 <= n -> parse_digits 10 (digits n) None = Some n.
Proof.
  intros Hn. unfold digits.
  destruct (parse_digits_go (Z.to_nat (Z.log2 n)) n) as [s Hs].
  { split; [done | by apply digits_fuel]. }
  rewrite Hs. reflexivity.
Qed.

(** On a string of digits, [parseInt] skips nothing, finds no sign and
    no hexadecimal prefix, and reads the whole string in base 10. *)
Lemma parseInt_all_digits s :
  s <> "" -> all_digits s = true ->
  parseInt_string s
  = match parse_digits 10 s None with
    | Some n => Num n
    | None => NaN
    end.
Proof.
  intros Hne Hall. destruct s as [| c r]; [done |].
  cbn [all_digits] in Hall. apply andb_true_iff in Hall as [Hc Hr].
  assert (Hlead : forall r',
    parseInt_string (String c r')
    = match r' with
      | String "x" _ | String "X" _ =>
          if Ascii.eqb c "0" then parseInt_string (String c r')
          else match parse_digits 10 (String c r') None with
               | Some n => Num (1 * n)
               | None => NaN
               end
      | _ => match parse_digits 10 (String c r') None with
             | Some n => Num (1 * n)
             | None => NaN
             end
      end).
  { intros r'. destruct c as [[] [] [] [] [] [] [] []]; try discriminate Hc;
      destruct r' as [| [[] [] [] [] [] [] [] []] r'']; reflexivity. }
  rewrite Hlead.
  destruct r as [| c2 r2].
  - destruct (parse_digits 10 (String c "") None); [f_equal; lia | done].
  - cbn [all_digits] in Hr. apply andb_true_iff in Hr as [Hc2 _].
    destruct c2 as [[] [] [] [] [] [] [] []]; try discriminate Hc2;
      (destruct (parse_digits 10 _ None); [f_equal; lia | done]).
Qed.

(** [parseInt] reads the decimal notation of a natural number back.
    This is a fact of the functions above, exact on every integer; of
    JavaScript it is true up to [max_safe_integer]. *)
Lemma parseInt_digits n : 0 <= n -> parseInt (VStr (digits n)) = Num n.
Proof.
  intros Hn. unfold parseInt. cbn [to_string].
  rewrite parseInt_all_digits.
  - by rewrite parse_digits_digits.
  - apply digits_go_nonempty.
  - by apply all_digits_go.
Qed.

(** Hence it leaves a natural number as it is. *)
Lemma parseInt_num n : 0 <= n -> parseInt (num n) = Num n.
Proof.
  intros Hn. rewrite <- (parseInt_digits n Hn). unfold parseInt.
  cbn [to_string num number_to_string].
  destruct (Z.ltb_spec n 0); [lia | done].
Qed.

(** ** The id of a play-by-play *)

(** The hockey play-by-play returns the header's id through [parseInt]. *)
Lemma nhl_playByPlay_id (get : Transport) id r :
  get (nhl.getPlayByPlay_request id) = Ok r ->
  has_competition (data r) = true ->
  exists m, nhl.getPlayByPlay get id = Ok (VObj m)
    /\ m !! "id"
       = Some (VNumber (parseInt (read_path (data r) [Field "header"; Field "id"]))).
Proof.
  intros Hget Hs.
  change (nhl.getPlayByPlay get id) with (operation NHL PlayByPlay get id).
  rewrite (operation_answered NHL PlayByPlay _ _ _ Hget), projector_table.
  cbn [sections_present]. rewrite Hs.
  destruct (project_table_object (data r) (table NHL PlayByPlay)) as [m Hm].
  exists m. split; [by rewrite Hm |].
  apply (project_table_lookup NHL PlayByPlay _ "id" _ ToInt _); [| exact Hm].
  cbn [table nhl_playByPlay]. repeat constructor.
Qed.

(** When the header's id is the decimal notation of a natural number
    [n] within the safe integers, the hockey play-by-play returns the
    number [n]. *)
Lemma nhl_playByPlay_id_decimal (get : Transport) id r n :
  get (nhl.getPlayByPlay_request id) = Ok r ->
  has_competition (data r) = true ->
  0 <= n <= max_safe_integer ->
  read_path (data r) [Field "header"; Field "id"] = VStr (digits n) ->
  exists m, nhl.getPlayByPlay get id = Ok (VObj m) /\ m !! "id" = Some (num n).
Proof.
  intros Hget Hs [Hn _] Hid.
  destruct (nhl_playByPlay_id get id r Hget Hs) as (m & Hop & Hm).
  exists m. split; [exact Hop |].
  by rewrite Hm, Hid, parseInt_digits.
Qed.

(** C2 at a document of the NBA play-by-play endpoint whose header id is
    the string "401283399": the operation returns that string as [id],
    not the integer 401283399 that [parseInt] makes of it. *)
Theorem nba_playByPlay_id_not_coerced :
  exists m,
    nba.getPlayByPlay (Sample.answering (Sample.nba_package))
      (num 401283399) = Ok (VObj m)
    /\ m !! "id" = Some (VStr "401283399")
    /\ parseInt (VStr "401283399") = Num 401283399
    /\ m !! "id" <> Some (VNumber (parseInt (VStr "401283399"))).
Proof.
  destruct (project_table_object (Sample.nba_package) nba_playByPlay)
    as [m Hm].
  assert (Hid : m !! "id" = Some (VStr "401283399")).
  { rewrite (project_table_lookup NBA PlayByPlay (Sample.nba_package)
               "id" (package [Field "header"; Field "id"]) Verbatim m);
      [reflexivity | | exact Hm].
    cbn [table nba_playByPlay]. repeat constructor. }
  exists m. split; [| split; [| split]].
  - rewrite <- Hm. vm_compute. reflexivity.
  - exact Hid.
  - vm_compute. reflexivity.
  - rewrite Hid. discriminate.
Qed.

(** ** Box scores *)

Lemma peek_object_not_nullish v k own : peek v k = VObj own -> nullish v = false.
Proof. by destruct v. Qed.




(** ** Dates *)

Lemma digits_single m :
  0 <= m <= 9 -> digits m = String (digit_char m) EmptyString.
Proof.
  intros Hm. unfold digits. rewrite digits_go_small by lia.
  by rewrite Z.mod_small by lia.
Qed.

Lemma digits_year y : 1000 <= y <= 9999 -> String.length (digits y) = 4%nat.
Proof.
  intros Hy. unfold digits.
  assert (Hlog : 9 <= Z.log2 y).
  { change 9 with (Z.log2 512). apply Z.log2_le_mono. lia. }
  destruct (Z.to_nat (Z.log2 y)) as [| [| [| fuel]]] eqn:Hfuel; try lia.
  rewrite !digits_go_large by (Z.to_euclidean_division_equations; lia).
  rewrite digits_go_small by (Z.to_euclidean_division_equations; lia).
  reflexivity.
Qed.

Lemma string_length_app (a b : string) :
  String.length (a +:+ b) = (String.length a + String.length b)%nat.
Proof.
  induction a as [| c a IH]; [done |].
  change (String c a +:+ b) with (String c (a +:+ b)).
  cbn [String.length]. by rewrite IH.
Qed.

(** A month or a day from 1 to 9 is rendered as "0" and its digit. *)
Lemma pad_single_digit m : 1 <= m <= 9 -> pad (num m) = "0" +:+ digits m.
Proof.
  intros Hm.
  assert (m = 1 \/ m = 2 \/ m = 3 \/ m = 4 \/ m = 5
          \/ m = 6 \/ m = 7 \/ m = 8 \/ m = 9) as Hc by lia.
  repeat destruct Hc as [-> | Hc]; try subst m; reflexivity.
Qed.

(** From 10 on, it is rendered as it is. *)
Example pad_two_digits : pad (num 15) = "15" /\ pad (VStr "04") = "04".
Proof. split; reflexivity. Qed.

(** C3: for every year and every month and day from 1 to 9, passed as
    the [year], [month] and [day] of the argument, the URL of both
    schedule operations ends in the year followed by "0", the digit of
    the month, "0" and the digit of the day; for a four-digit year that
    date component has eight characters. *)
Theorem schedule_date_zero_padded (arg : value) (year month day : Z) :
  nullish arg = false ->
  peek arg "year" = num year ->
  peek arg "month" = num month ->
  peek arg "day" = num day ->
  1 <= month <= 9 ->
  1 <= day <= 9 ->
  let date :=
    to_string (num year) +:+ "0" +:+ String (digit_char month) ""
      +:+ "0" +:+ String (digit_char day) "" in
  url <$> nhl.getSchedule_request arg
    = Ok ("http://cdn.espn.com/core/nhl/schedule?dates=" +:+ date)
  /\ url <$> nba.getSchedule_request arg
     = Ok ("http://cdn.espn.com/core/nba/schedule?dates=" +:+ date)
  /\ (1000 <= year <= 9999 -> String.length date = 8%nat).
Proof.
  intros Harg Hyear Hmonth Hday Hm Hd date.
  assert (Hdate : date_component (num year) (num month) (num day) = date).
  { unfold date_component, date.
    rewrite !pad_single_digit by done. by rewrite !digits_single by lia. }
  split; [| split].
  - unfold nhl.getSchedule_request. rewrite !destructure_present by done.
    rewrite Hyear, Hmonth, Hday, <- Hdate. reflexivity.
  - unfold nba.getSchedule_request. rewrite !destructure_present by done.
    rewrite Hyear, Hmonth, Hday, <- Hdate. reflexivity.
  - intros Hy. unfold date. rewrite string_length_app.
    cbn [to_string num number_to_string].
    destruct (Z.ltb_spec year 0); [lia |].
    by rewrite digits_year.
Qed.

Lemma schedule_date_zero_padded_witness :
  url <$> nhl.getSchedule_request
            (obj [("year", num 2016); ("month", num 4); ("day", num 5)])
    = Ok "http://cdn.espn.com/core/nhl/schedule?dates=20160405"
  /\ url <$> nba.getSchedule_request
               (obj [("year", num 2016); ("month", num 4); ("day", num 5)])
     = Ok "http://cdn.espn.com/core/nba/schedule?dates=20160405".
Proof.
  destruct (schedule_date_zero_padded
              (obj [("year", num 2016); ("month", num 4); ("day", num 5)])
              2016 4 5)
    as (Hnhl & Hnba & _);
    [reflexivity | reflexivity | reflexivity | reflexivity | lia | lia |].
  split; [exact Hnhl | exact Hnba].
Defined.

(** The example of the specification: year 2016, month 4, day 15. *)
Example schedule_2016_4_15 :
  url <$> nba.getSchedule_request
            (obj [("year", num 2016); ("month", num 4); ("day", num 15)])
    = Ok "http://cdn.espn.com/core/nba/schedule?dates=20160415".
Proof. reflexivity. Qed.

(** ** Scoreboards *)

Lemma dom_limit (v : value) :
  dom (list_to_map [("limit", v)] : gmap string value) = {[ "limit" ]}.
Proof.
  cbn [list_to_map foldr]. rewrite insert_empty. apply dom_singleton_L.
Qed.

(** The parameter objects alone: a scoreboard call whose argument
    carries no year, no month and no day builds, in both sports, a
    parameter object with the single key [limit], holding the given
    limit or 300; called with [undefined] or [null], neither operation
    builds a request.  What the URL carries is another matter, see
    below. *)
Theorem scoreboard_without_date (arg : value) :
  peek arg "year" = VUndef ->
  peek arg "month" = VUndef ->
  peek arg "day" = VUndef ->
  let limit := or_default (peek arg "limit") (num 300) in
  (nullish arg = false ->
   (exists p, params <$> nhl.getScoreboard_request arg = Ok (VObj p)
      /\ dom p = {[ "limit" ]} /\ p !! "limit" = Some limit)
   /\ (exists p, params <$> nba.getScoreboard_request arg = Ok (VObj p)
         /\ dom p = {[ "limit" ]} /\ p !! "limit" = Some limit))
  /\ (nullish arg = true ->
      nhl.getScoreboard_request arg = Throw TypeError
      /\ nba.getScoreboard_request arg = Throw TypeError).
Proof.
  intros Hy Hm Hd limit. split; intros Harg.
  - split; exists (list_to_map [("limit", limit)]).
    + unfold nhl.getScoreboard_request.
      rewrite !destructure_present by done. rewrite Hy, Hm, Hd.
      split; [reflexivity | split; [apply dom_limit | reflexivity]].
    + unfold nba.getScoreboard_request.
      rewrite !destructure_present by done. rewrite Hy, Hm, Hd.
      split; [reflexivity | split; [apply dom_limit | reflexivity]].
  - unfold nhl.getScoreboard_request, nba.getScoreboard_request.
    by rewrite !destructure_nullish by done.
Qed.

Lemma scoreboard_without_date_witness :
  (exists p, params <$> nhl.getScoreboard_request (obj []) = Ok (VObj p)
     /\ dom p = {[ "limit" ]} /\ p !! "limit" = Some (num 300))
  /\ (exists p, params <$> nba.getScoreboard_request (obj []) = Ok (VObj p)
        /\ dom p = {[ "limit" ]} /\ p !! "limit" = Some (num 300)).
Proof.
  destruct (scoreboard_without_date (obj []) eq_refl eq_refl eq_refl)
    as [Hpresent _].
  exact (Hpresent eq_refl).
Defined.

(** With a date, the hockey scoreboard adds [dates] to the parameter
    object. *)
Example nhl_scoreboard_with_date :
  params <$> nhl.getScoreboard_request
               (obj [("year", num 2019); ("month", num 11); ("day", num 16)])
  = Ok (obj [("limit", num 300); ("dates", VStr "20191116")]).
Proof. vm_compute. reflexivity. Qed.

(** The NBA scoreboard writes the date into the URL instead, whether or
    not one was given. *)
Example nba_scoreboard_url_without_date :
  url <$> nba.getScoreboard_request (obj [])
  = Ok "http://site.api.espn.com/apis/site/v2/sports/basketball/nba/scoreboard?dates=nullNaNNaN".
Proof. reflexivity. Qed.

(** C6 at the call [getScoreboard({})]: no year, no month, no day.  The
    hockey operation sends [limit] and nothing else, to a URL without a
    query string.  The NBA operation sends [limit] too, but to a URL
    whose query string already is "dates=nullNaNNaN": the request does
    carry a [dates] parameter, made of the texts of [null] and [NaN]. *)
Theorem nba_scoreboard_sends_date_unasked :
  nba.getScoreboard_request (obj [])
  = Ok {| url := "http://site.api.espn.com/apis/site/v2/sports/basketball/nba/scoreboard?dates=nullNaNNaN";
          params := obj [("limit", num 300)] |}
  /\ query_has "dates"
       "http://site.api.espn.com/apis/site/v2/sports/basketball/nba/scoreboard?dates=nullNaNNaN"
     = true
  /\ nhl.getScoreboard_request (obj [])
     = Ok {| url := "http://site.api.espn.com/apis/site/v2/sports/hockey/nhl/scoreboard";
             params := obj [("limit", num 300)] |}
  /\ query_has "dates"
       "http://site.api.espn.com/apis/site/v2/sports/hockey/nhl/scoreboard"
     = false.
Proof.
  split; [reflexivity |]. split; [vm_compute; reflexivity |].
  split; [reflexivity |]. vm_compute. reflexivity.
Qed.

(** It does so for every argument: the [dates] parameter of the NBA
    scoreboard is in the URL whether or not a date was given. *)
Lemma nba_scoreboard_always_sends_date (arg : value) (rq : Request) :
  nba.getScoreboard_request arg = Ok rq -> query_has "dates" (url rq) = true.
Proof.
  unfold nba.getScoreboard_request, destructure, get_prop.
  destruct (nullish arg); [discriminate |].
  cbn [mbind outcome_bind mret outcome_ret]. intros [= <-].
  generalize (date_component (or_default (peek arg "year") VNull)
                (or_default (peek arg "month") VNull)
                (or_default (peek arg "day") VNull)).
  intros date. reflexivity.
Qed.

(** ** Standings *)

(** C5, as stated, fails: called with no argument, [getStandings]
    destructures [undefined] and throws before any request is built. *)
Lemma standings_without_argument_throw :
  nhl.getStandings_request 2026 VUndef = Throw TypeError
  /\ nba.getStandings_request 2026 VUndef = Throw TypeError
  /\ nhl.getStandings (Sample.answering Sample.no_game) 2026 VUndef
     = Throw TypeError.
Proof. repeat split; reflexivity. Qed.

(** C5, as the code has it: called with an argument that carries neither
    [year] nor [group], such as [{}], [getStandings] builds a request
    for the current year and the league: in hockey [season] is the
    current year and [level] is the code of 'league', 1; in basketball
    the URL path names the current year and the group 'league'. *)
Theorem standings_defaults (currentYear : Z) (arg : value) :
  nullish arg = false ->
  peek arg "year" = VUndef ->
  peek arg "group" = VUndef ->
  (exists p, params <$> nhl.getStandings_request currentYear arg = Ok (VObj p)
     /\ p !! "season" = Some (num currentYear)
     /\ p !! "level" = Some (num (nhl.groupId (VStr "league")))
     /\ nhl.groupId (VStr "league") = 1)
  /\ url <$> nba.getStandings_request currentYear arg
     = Ok ("http://cdn.espn.com/core/nba/standings/_/season/"
             +:+ to_string (num currentYear) +:+ "/group/league").
Proof.
  intros Harg Hy Hg. split.
  - unfold nhl.getStandings_request.
    rewrite !destructure_present by done. rewrite Hy, Hg.
    eexists. split; [reflexivity |]. repeat split; reflexivity.
  - unfold nba.getStandings_request.
    rewrite !destructure_present by done. rewrite Hy, Hg. reflexivity.
Qed.

Lemma standings_defaults_witness :
  (exists p, params <$> nhl.getStandings_request 2026 (obj []) = Ok (VObj p)
     /\ p !! "season" = Some (num 2026)
     /\ p !! "level" = Some (num 1))
  /\ url <$> nba.getStandings_request 2026 (obj [])
     = Ok "http://cdn.espn.com/core/nba/standings/_/season/2026/group/league".
Proof.
  destruct (standings_defaults 2026 (obj []) eq_refl eq_refl eq_refl)
    as [(p & Hp & Hseason & Hlevel & _) Hnba].
  split; [| exact Hnba].
  exists p. split; [exact Hp |]. split; [exact Hseason | exact Hlevel].
Defined.

(** C7: the hockey group codes of 'league', 'conference' and 'division'
    are 1, 2 and 3, pairwise distinct; every other group, string or not,
    gets the code of 'division'; the code is what [getStandings] sends
    as [level]. *)
Theorem hockey_group_codes :
  nhl.groupId (VStr "league") = 1
  /\ nhl.groupId (VStr "conference") = 2
  /\ nhl.groupId (VStr "division") = 3
  /\ nhl.groupId (VStr "league") <> nhl.groupId (VStr "conference")
  /\ nhl.groupId (VStr "conference") <> nhl.groupId (VStr "division")
  /\ nhl.groupId (VStr "league") <> nhl.groupId (VStr "division")
  /\ (forall group,
        group <> VStr "league" -> group <> VStr "conference" ->
        nhl.groupId group = nhl.groupId (VStr "division"))
  /\ (forall currentYear year (group : string),
        exists p,
          params <$> nhl.getStandings_request currentYear
                       (obj [("year", year); ("group", VStr group)])
            = Ok (VObj p)
          /\ p !! "level" = Some (num (nhl.groupId (VStr group)))).
Proof.
  repeat (split; [done |]). split.
  - intros group Hl Hc. unfold nhl.groupId, strict_eq_string.
    destruct group as [| | | | s | |]; try reflexivity.
    destruct (String.eqb_spec s "league") as [-> | _]; [done |].
    destruct (String.eqb_spec s "conference") as [-> | _]; [done |].
    reflexivity.
  - intros currentYear year group. eexists. split; reflexivity.
Qed.

Lemma hockey_group_codes_witness :
  nhl.groupId (VStr "wildcard") = nhl.groupId (VStr "division")
  /\ nhl.groupId (num 2) = nhl.groupId (VStr "division").
Proof.
  destruct hockey_group_codes as (_ & _ & _ & _ & _ & _ & Hother & _).
  split; apply Hother; discriminate.
Defined.

(** C10: the NBA [getStandings] never returns a result.  Whatever the
    transport answers, the projection reads [content] off the response
    object, finds [undefined] and throws on [.standings]; a rejected
    request or a missing argument ends in an error as well. *)
Theorem nba_standings_never_return (get : Transport) (currentYear : Z)
  (arg : value) :
  (forall r, nba.getStandings_project r = Throw TypeError)
  /\ (forall r, Ok (response_object r) ▸ "content" = Ok VUndef)
  /\ exists e, nba.getStandings get currentYear arg = Throw e.
Proof.
  assert (Hproject : forall r, nba.getStandings_project r = Throw TypeError)
    by reflexivity.
  split; [exact Hproject |]. split; [reflexivity |].
  unfold nba.getStandings, perform.
  destruct (nba.getStandings_request currentYear arg) as [rq | e];
    cbn [mbind outcome_bind]; [| eauto].
  destruct (get rq) as [r | e]; [| eauto].
  exists TypeError. apply Hproject.
Qed.

(** The hockey [getStandings], which reads [res.data], does return. *)
Example nhl_standings_return :
  nhl.getStandings (Sample.answering Sample.no_game) 2026 (obj [])
  = Ok Sample.no_game.
Proof. reflexivity. Qed.

(** * Further properties of the two modules *)

(** ** The transport *)

Lemma perform_answered (get : Transport) rq r project :
  get rq = Ok r -> perform get (Ok rq) project = project r.
Proof. intros Hget. unfold perform. cbn [mbind outcome_bind]. by rewrite Hget. Qed.

Lemma perform_rejected (get : Transport) rq e project :
  get rq = Throw e -> perform get (Ok rq) project = Throw e.
Proof. intros Hget. unfold perform. cbn [mbind outcome_bind]. by rewrite Hget. Qed.

Lemma perform_answered_with (get : Transport) rq r project v :
  get rq = Ok r -> project r = v -> perform get (Ok rq) project = v.
Proof. intros Hget <-. by apply perform_answered. Qed.

(** With an argument that can be destructured, every request builder
    returns a request. *)
Lemma builders_return (currentYear : Z) (arg : value) :
  nullish arg = false ->
  (exists rq, nhl.getSchedule_request arg = Ok rq)
  /\ (exists rq, nhl.getScoreboard_request arg = Ok rq)
  /\ (exists rq, nhl.getStandings_request currentYear arg = Ok rq)
  /\ (exists rq, nba.getSchedule_request arg = Ok rq)
  /\ (exists rq, nba.getScoreboard_request arg = Ok rq)
  /\ (exists rq, nba.getStandings_request currentYear arg = Ok rq).
Proof.
  intros Harg.
  unfold nhl.getSchedule_request, nhl.getScoreboard_request,
    nhl.getStandings_request, nba.getSchedule_request,
    nba.getScoreboard_request, nba.getStandings_request.
  rewrite !destructure_present by done.
  cbn [mbind outcome_bind mret outcome_ret].
  repeat split; try (eexists; reflexivity).
  destruct (truthy _ && truthy _ && truthy _); eexists; reflexivity.
Qed.



(** ** Operations that return the document as it is *)





(** ** How the game operations relate *)

(** X4: the hockey play-by-play is a part of the hockey summary.  For
    the same transport and game id, whenever [getPlayByPlay] returns,
    [getSummary] returns too and has every field of the play-by-play
    with the same value; whenever one is rejected, so is the other,
    with the same error. *)
Theorem nhl_playByPlay_within_summary (get : Transport) (id : value) :
  (forall m1, nhl.getPlayByPlay get id = Ok (VObj m1) ->
     exists m2, nhl.getSummary get id = Ok (VObj m2) /\ m1 ⊆ m2)
  /\ (forall e, nhl.getPlayByPlay get id = Throw e <->
                nhl.getSummary get id = Throw e).
Proof.
  change (nhl.getPlayByPlay get id) with (operation NHL PlayByPlay get id).
  change (nhl.getSummary get id) with (operation NHL Summary get id).
  destruct (get (request_of NHL PlayByPlay id)) as [r | e0] eqn:Hget.
  2: { rewrite (operation_rejected NHL PlayByPlay _ _ _ Hget),
         (operation_rejected NHL Summary _ _ _ Hget).
       split; [discriminate | done]. }
  rewrite (operation_answered NHL PlayByPlay _ _ _ Hget),
    (operation_answered NHL Summary _ _ _ Hget), !projector_table.
  cbn [sections_present table].
  destruct (has_competition (data r)); [| split; [discriminate | done]].
  split; [| intros e; split; discriminate].
  intros m1 [= <-]. eexists. split; [reflexivity |].
  apply map_subseteq_spec. intros k v.
  cbn [map list_to_map foldr].
  repeat (rewrite lookup_insert; case_decide; [subst k; intros Hk;
            vm_compute; vm_compute in Hk; exact Hk |]).
  rewrite lookup_empty. discriminate.
Qed.

(** X5: the [pickcenter] field of [getPicks] is filled from the
    [winprobability] of the document, in both sports; in basketball
    [winProbability] holds the same value.  The [pickcenter] of the
    document itself is never read: two documents that differ only there
    give the same result. *)
Theorem picks_pickcenter s (get get' : Transport) id r r' own v :
  get (request_of s Picks id) = Ok r ->
  get' (request_of s Picks id) = Ok r' ->
  data r = VObj own ->
  data r' = VObj (<["pickcenter" := v]> own) ->
  operation s Picks get id = operation s Picks get' id
  /\ (forall m, operation s Picks get id = Ok (VObj m) ->
        m !! "pickcenter" = Some (peek (data r) "winprobability")
        /\ (s = NBA -> m !! "winProbability" = m !! "pickcenter")).
Proof.
  intros Hget Hget' Hd Hd'.
  rewrite (operation_answered _ _ _ _ _ Hget),
    (operation_answered _ _ _ _ _ Hget'), !projector_table.
  split.
  - rewrite Hd, Hd'.
    destruct s; cbn [sections_present table];
      unfold has_competition, project_table, nhl_picks, nba_picks,
        competitors, competition;
      cbn [map read_path fold_left read_step peek coerce];
      rewrite !lookup_insert_ne by done; reflexivity.
  - destruct (sections_present s Picks (data r)); [| discriminate].
    intros m Hok.
    assert (Hm : project_table (data r) (table s Picks) = VObj m)
      by congruence.
    assert (Hin : ("pickcenter", ([Field "winprobability"], Verbatim))
                    ∈ table s Picks).
    { destruct s; cbn [table nhl_picks nba_picks]; repeat constructor. }
    split; [exact (project_table_lookup _ _ _ _ _ _ _ Hin Hm) |].
    intros ->.
    rewrite (project_table_lookup NBA Picks _ "pickcenter" _ _ _ Hin Hm).
    apply (project_table_lookup NBA Picks _ "winProbability"
             [Field "winprobability"] Verbatim); [| exact Hm].
    cbn [table nba_picks]. repeat constructor.
Qed.

Lemma picks_pickcenter_witness :
  nhl.getPicks (Sample.answering Sample.nhl_game) (num 401272446)
  = nhl.getPicks (Sample.answering Sample.nhl_game_with_pickcenter)
      (num 401272446).
Proof.
  apply (picks_pickcenter NHL
           (Sample.answering Sample.nhl_game)
           (Sample.answering Sample.nhl_game_with_pickcenter)
           (num 401272446)
           (Sample.response Sample.nhl_game)
           (Sample.response Sample.nhl_game_with_pickcenter)
           _ _ eq_refl eq_refl eq_refl eq_refl).
Defined.

(** X6: the NBA play-by-play, box score and summary look for the game
    under [gamepackageJSON]; on every body without it they throw a
    [TypeError], whatever else the body holds. *)
Theorem nba_needs_package (get : Transport) (r : Response) (id : value) :
  (forall rq, get rq = Ok r) ->
  nullish (peek (data r) "gamepackageJSON") = true ->
  nba.getPlayByPlay get id = Throw TypeError
  /\ nba.getBoxScore get id = Throw TypeError
  /\ nba.getSummary get id = Throw TypeError.
Proof.
  intros Hget Hpackage.
  assert (Hs : forall o, o <> Picks -> sections_present NBA o (data r) = false).
  { intros o Ho. destruct o; try done; cbn [sections_present];
      unfold has_competition; rewrite Hpackage; by rewrite andb_false_r. }
  split; [| split].
  - change (nba.getPlayByPlay get id) with (operation NBA PlayByPlay get id).
    by rewrite (operation_answered _ _ _ _ _ (Hget _)), projector_table, Hs.
  - apply perform_answered_with with r; [done |].
    unfold nba.getBoxScore_project. cbv zeta. reads; reflexivity.
  - change (nba.getSummary get id) with (operation NBA Summary get id).
    by rewrite (operation_answered _ _ _ _ _ (Hget _)), projector_table, Hs.
Qed.

Lemma nba_needs_package_witness :
  nba.getPlayByPlay (Sample.answering Sample.nba_game) (num 401283399)
    = Throw TypeError
  /\ nba.getBoxScore (Sample.answering Sample.nba_game) (num 401283399)
     = Throw TypeError
  /\ nba.getSummary (Sample.answering Sample.nba_game) (num 401283399)
     = Throw TypeError.
Proof.
  apply (nba_needs_package (Sample.answering Sample.nba_game)
           (Sample.response Sample.nba_game) (num 401283399)
           (fun rq => eq_refl) eq_refl).
Defined.

(** X7: wherever the id goes through [parseInt] (the three hockey
    projections and the NBA picks), a header id that is the decimal
    notation of a natural number [n] within the safe integers, or the
    number [n] itself, comes out as the number [n]. *)
Theorem coerced_ids s o (get : Transport) id r n :
  s = NHL \/ o = Picks ->
  get (request_of s o id) = Ok r ->
  sections_present s o (data r) = true ->
  0 <= n <= max_safe_integer ->
  read_path (data r) [Field "header"; Field "id"] = VStr (digits n)
  \/ read_path (data r) [Field "header"; Field "id"] = num n ->
  exists m, operation s o get id = Ok (VObj m) /\ m !! "id" = Some (num n).
Proof.
  intros Hso Hget Hs [Hn _] Hid.
  rewrite (operation_answered _ _ _ _ _ Hget), projector_table, Hs.
  destruct (project_table_object (data r) (table s o)) as [m Hm].
  exists m. split; [by rewrite Hm |].
  assert (Hin : ("id", ([Field "header"; Field "id"], ToInt)) ∈ table s o).
  { destruct Hso as [-> | ->]; [destruct o | destruct s];
      cbn [table nhl_playByPlay nhl_summary nhl_picks nba_picks];
      repeat constructor. }
  rewrite (project_table_lookup _ _ _ _ _ _ _ Hin Hm). cbn [coerce].
  destruct Hid as [-> | ->]; by rewrite ?parseInt_digits, ?parseInt_num.
Qed.

Lemma coerced_ids_witness :
  exists m,
    nba.getPicks (Sample.answering Sample.nba_game) (num 401283399)
      = Ok (VObj m)
    /\ m !! "id" = Some (num 401283399).
Proof.
  apply (coerced_ids NBA Picks (Sample.answering Sample.nba_game)
           (num 401283399) (Sample.response Sample.nba_game) 401283399).
  - right. reflexivity.
  - reflexivity.
  - reflexivity.
  - unfold max_safe_integer. lia.
  - left. vm_compute. reflexivity.
Defined.

Lemma has_competition_header d :
  has_competition d = true ->
  nullish d = false /\ nullish (peek d "header") = false.
Proof.
  unfold has_competition, read_path. cbn [fold_left read_step].
  intros H. repeat (apply andb_true_iff in H as [H ?]).
  split; by apply negb_true_iff.
Qed.

(** X8: the hockey box score is the [boxScore] of the hockey
    play-by-play with the play-by-play's [id] written into it: whenever
    [getPlayByPlay] returns a result whose [boxScore] is an object,
    [getBoxScore], on the same transport and game id, returns that
    object with [id] set to the [id] of the play-by-play. *)
Theorem nhl_boxScore_of_playByPlay (get : Transport) id m own :
  nhl.getPlayByPlay get id = Ok (VObj m) ->
  m !! "boxScore" = Some (VObj own) ->
  exists v, m !! "id" = Some v
    /\ nhl.getBoxScore get id = Ok (VObj (<["id" := v]> own)).
Proof.
  change (nhl.getPlayByPlay get id) with (operation NHL PlayByPlay get id).
  destruct (get (request_of NHL PlayByPlay id)) as [r | e] eqn:Hget.
  2: { by rewrite (operation_rejected _ _ _ _ _ Hget). }
  rewrite (operation_answered _ _ _ _ _ Hget), projector_table.
  cbn [sections_present].
  destruct (has_competition (data r)) eqn:Hs; [| discriminate].
  intros Hok Hbox.
  assert (Hm : project_table (data r) (table NHL PlayByPlay) = VObj m)
    by congruence.
  destruct (has_competition_header _ Hs) as [Hd Hh].
  eexists. split.
  - apply (project_table_lookup NHL PlayByPlay (data r) "id"
             [Field "header"; Field "id"] ToInt); [| exact Hm].
    cbn [table nhl_playByPlay]. repeat constructor.
  - rewrite (project_table_lookup NHL PlayByPlay (data r) "boxScore"
               [Field "boxscore"] Verbatim m) in Hbox; [| | exact Hm].
    2: { cbn [table nhl_playByPlay]. repeat constructor. }
    injection Hbox as Hbox. cbn [read_path fold_left read_step] in Hbox.
    apply perform_answered_with with r; [exact Hget |].
    unfold nhl.getBoxScore_project. cbv zeta. reads. rewrite Hbox.
    reflexivity.
Qed.

Lemma nhl_boxScore_of_playByPlay_witness :
  nhl.getBoxScore (Sample.answering Sample.nhl_game) (num 401272446)
  = Ok (VObj (<["id" := num 401272446]> (list_to_map [("teams", VArr [] ∅)]))).
Proof.
  destruct (nhl_boxScore_of_playByPlay (Sample.answering Sample.nhl_game)
              (num 401272446)
              (list_to_map
                 (map (fun '(k, (p, c)) =>
                         (k, coerce c (read_path Sample.nhl_game p)))
                    nhl_playByPlay))
              (list_to_map [("teams", VArr [] ∅)]))
    as (v & Hid & Hbox).
  - vm_compute. reflexivity.
  - vm_compute. reflexivity.
  - vm_compute in Hid. injection Hid as <-. exact Hbox.
Defined.

(** X9: without a [boxscore] in the place it is read from, a box-score
    operation throws a [TypeError]: there is nothing to write the [id]
    into. *)
Theorem box_score_needs_boxscore (get : Transport) (r : Response) id :
  (forall rq, get rq = Ok r) ->
  (nullish (peek (data r) "boxscore") = true ->
   nhl.getBoxScore get id = Throw TypeError)
  /\ (nullish (peek (peek (data r) "gamepackageJSON") "boxscore") = true ->
      nba.getBoxScore get id = Throw TypeError).
Proof.
  intros Hget. split; intros Hbox.
  - apply perform_answered_with with r; [done |].
    unfold nhl.getBoxScore_project. cbv zeta. reads; try reflexivity.
    destruct (peek (data r) "boxscore"); try discriminate; reflexivity.
  - apply perform_answered_with with r; [done |].
    unfold nba.getBoxScore_project. cbv zeta. reads; try reflexivity.
    destruct (peek (peek (data r) "gamepackageJSON") "boxscore");
      try discriminate; reflexivity.
Qed.

Lemma box_score_needs_boxscore_witness :
  nhl.getBoxScore
    (Sample.answering (obj [("header", obj [("id", VStr "401272446")])]))
    (num 401272446)
  = Throw TypeError.
Proof.
  apply (box_score_needs_boxscore
           (Sample.answering (obj [("header", obj [("id", VStr "401272446")])]))
           (Sample.response (obj [("header", obj [("id", VStr "401272446")])]))
           (num 401272446) (fun rq => eq_refl)).
  reflexivity.
Defined.

(** ** The date component, for every month and day *)

Lemma is_digit_val c :
  is_digit c = true -> exists d, digit_val 10 c = Some d.
Proof.
  intros Hc. destruct c as [[] [] [] [] [] [] [] []]; try discriminate Hc;
    eexists; reflexivity.
Qed.

Lemma all_digits_app a b :
  all_digits (a +:+ b) = all_digits a && all_digits b.
Proof.
  induction a as [| c a IH]; [done |].
  change (String c a +:+ b) with (String c (a +:+ b)).
  cbn [all_digits]. rewrite IH. by rewrite andb_assoc.
Qed.

(** Reading a string of digits followed by [b] is reading the digits
    first and going on with [b]. *)
Lemma parse_digits_app a b acc :
  all_digits a = true ->
  parse_digits 10 (a +:+ b) acc = parse_digits 10 b (parse_digits 10 a acc).
Proof.
  revert acc. induction a as [| c a IH]; intros acc Ha; [done |].
  change (String c a +:+ b) with (String c (a +:+ b)).
  cbn [all_digits] in Ha. apply andb_true_iff in Ha as [Hc Ha].
  destruct (is_digit_val c Hc) as [d Hd].
  cbn [parse_digits]. rewrite Hd. by apply IH.
Qed.

Lemma all_digits_digits n : all_digits (digits n) = true.
Proof. by apply all_digits_go. Qed.

Lemma digits_two m :
  10 <= m <= 99 ->
  digits m = String (digit_char (m / 10)) (String (digit_char (m mod 10)) "").
Proof.
  intros Hm. unfold digits.
  assert (Hlog : 3 <= Z.log2 m).
  { change 3 with (Z.log2 8). apply Z.log2_le_mono. lia. }
  destruct (Z.to_nat (Z.log2 m)) as [| fuel] eqn:Hfuel; [lia |].
  rewrite digits_go_large by lia.
  rewrite digits_go_small by (Z.to_euclidean_division_equations; lia).
  rewrite (Z.mod_small (m / 10))
    by (Z.to_euclidean_division_equations; lia).
  reflexivity.
Qed.

(** A month or a day from 0 to 99 is rendered as its two decimal
    digits. *)
Lemma pad_two m :
  0 <= m <= 99 ->
  pad (num m)
  = String (digit_char (m / 10)) (String (digit_char (m mod 10)) "").
Proof.
  intros Hm. unfold pad. rewrite parseInt_num by lia.
  cbn [number_le number_to_string].
  destruct (Z.leb_spec m 9) as [Hsmall | Hlarge];
    destruct (Z.ltb_spec m 0); try lia.
  - rewrite digits_single by lia.
    rewrite Z.div_small, Z.mod_small by lia. reflexivity.
  - apply digits_two. lia.
Qed.

Lemma parse_two (m : Z) (acc : Z) :
  0 <= m <= 99 ->
  parse_digits 10 (pad (num m)) (Some acc) = Some (acc * 100 + m).
Proof.
  intros Hm. rewrite pad_two by done. cbn [parse_digits].
  rewrite (proj2 (digit_char_cases (m / 10)
                    ltac:(Z.to_euclidean_division_equations; lia))).
  rewrite (proj2 (digit_char_cases _ (mod_10_digit m))).
  cbn [default from_option]. unfold id. f_equal.
  Z.to_euclidean_division_equations; lia.
Qed.

Lemma all_digits_pad m : 0 <= m <= 99 -> all_digits (pad (num m)) = true.
Proof.
  intros Hm. rewrite pad_two by done. cbn [all_digits].
  rewrite (proj1 (digit_char_cases (m / 10)
                    ltac:(Z.to_euclidean_division_equations; lia))).
  by rewrite (proj1 (digit_char_cases _ (mod_10_digit m))).
Qed.

Lemma date_component_num y m d :
  0 <= y ->
  date_component (num y) (num m) (num d)
  = digits y +:+ pad (num m) +:+ pad (num d).
Proof.
  intros Hy. unfold date_component. cbn [to_string num number_to_string].
  by destruct (Z.ltb_spec y 0); [lia |].
Qed.

Lemma string_app_nonempty (a b : string) : a <> "" -> a +:+ b <> "".
Proof. by destruct a. Qed.



(** [parseInt] of the digits of [n], whatever digit string led to an
    accumulator of zero before them. *)
Lemma parseInt_zero_digits n :
  0 <= n -> parseInt (VStr ("0" +:+ digits n)) = Num n.
Proof.
  intros Hn. unfold parseInt. cbn [to_string].
  rewrite parseInt_all_digits; [| done |].
  2: { change ("0" +:+ digits n) with (String "0" (digits n)).
       cbn [all_digits]. by rewrite all_digits_digits. }
  change ("0" +:+ digits n) with (String "0" (digits n)).
  cbn [parse_digits]. change (digit_val 10 "0") with (Some 0).
  unfold digits.
  destruct (parse_digits_go (Z.to_nat (Z.log2 n)) n) as [s Hs].
  { split; [done | by apply digits_fuel]. }
  rewrite Hs. cbn [parse_digits default from_option]. unfold id.
  reflexivity.
Qed.

Lemma pad_parseInt v w : parseInt v = parseInt w -> pad v = pad w.
Proof. unfold pad. by intros ->. Qed.



(** ** Arguments that carry no date, or half a date *)

(** X12: the schedules and the NBA scoreboard always write a date into
    the URL.  When the argument carries no year, no month and no day,
    the defaults are [null] and the date component is "nullNaNNaN". *)
Theorem url_without_date (arg : value) :
  nullish arg = false ->
  peek arg "year" = VUndef ->
  peek arg "month" = VUndef ->
  peek arg "day" = VUndef ->
  url <$> nhl.getSchedule_request arg
    = Ok "http://cdn.espn.com/core/nhl/schedule?dates=nullNaNNaN"
  /\ url <$> nba.getSchedule_request arg
     = Ok "http://cdn.espn.com/core/nba/schedule?dates=nullNaNNaN"
  /\ url <$> nba.getScoreboard_request arg
     = Ok "http://site.api.espn.com/apis/site/v2/sports/basketball/nba/scoreboard?dates=nullNaNNaN".
Proof.
  intros Harg Hy Hm Hd.
  unfold nhl.getSchedule_request, nba.getSchedule_request,
    nba.getScoreboard_request.
  rewrite !destructure_present by done. rewrite Hy, Hm, Hd.
  repeat split; reflexivity.
Qed.

Lemma url_without_date_witness :
  url <$> nhl.getSchedule_request (obj [("limit", num 10)])
  = Ok "http://cdn.espn.com/core/nhl/schedule?dates=nullNaNNaN".
Proof.
  apply (url_without_date (obj [("limit", num 10)])); reflexivity.
Defined.



(** X14: a number, a string or a boolean passed as the argument of a
    schedule, scoreboard or standings operation is destructured like an
    empty object: it has none of the properties, so every default
    applies and the value itself is ignored.  [getStandings(2016)]
    asks for the current year. *)
Theorem primitive_argument_ignored (currentYear : Z) (arg : value) :
  primitive arg = true ->
  nhl.getSchedule_request arg = nhl.getSchedule_request (obj [])
  /\ nhl.getScoreboard_request arg = nhl.getScoreboard_request (obj [])
  /\ nhl.getStandings_request currentYear arg
     = nhl.getStandings_request currentYear (obj [])
  /\ nba.getSchedule_request arg = nba.getSchedule_request (obj [])
  /\ nba.getScoreboard_request arg = nba.getScoreboard_request (obj [])
  /\ nba.getStandings_request currentYear arg
     = nba.getStandings_request currentYear (obj []).
Proof.
  intros Harg. destruct arg; try discriminate Harg; repeat split; reflexivity.
Qed.

Lemma primitive_argument_ignored_witness :
  exists p,
    params <$> nhl.getStandings_request 2026 (num 2016) = Ok (VObj p)
    /\ p !! "season" = Some (num 2026).
Proof.
  destruct (primitive_argument_ignored 2026 (num 2016) eq_refl)
    as (_ & _ & Hstandings & _).
  rewrite Hstandings. eexists. split; reflexivity.
Defined.



(** ** Team URLs *)

Lemma digits_inj a b : 0 <= a -> 0 <= b -> digits a = digits b -> a = b.
Proof.
  intros Ha Hb Heq.
  pose proof (parse_digits_digits a Ha) as Hpa.
  rewrite Heq, parse_digits_digits in Hpa by done. congruence.
Qed.



(** ** The NBA scoreboard *)


